(** * Roll inventory service: a shallow embedding of [main.py]

    The service keeps one relational table [rolls] and offers five
    operations on it: create, soft delete, lookup by id, filtered listing and
    statistics over a time window.  The table is held here as the list of its
    rows in insertion order, a session as a computation over that list, and
    the HTTP layer as functions from a request to a status code.

    Conventions of the embedding:
    - a [datetime] is a count of microseconds (the resolution of Python's
      [datetime]), so a [timedelta] is a difference of two such counts;
    - a Python [float] and a [Float] column are IEEE 754 double-precision
      numbers, with their rounding, their infinities and their NaN; a
      rational literal stands for the double nearest to it;
    - a Python [int] is an integer of any size; the key column holds 64-bit
      integers;
    - [datetime.now()] is an argument [now] of the operation that reads it;
    - a nullable column is an [option]; SQL comparisons against NULL are not
      true, so a row with a NULL never passes a filter on that column. *)

From Stdlib Require Import ZArith QArith List String Bool Lia SpecFloat.
Import ListNotations.

Local Open Scope Z_scope.

(** ** Double-precision numbers *)

Definition prec : Z := 53.
Definition emax : Z := 1024.

Definition float : Type := spec_float.

Definition zero : float := S754_zero false.

Definition is_nan (x : float) : bool :=
  match x with S754_nan => true | _ => false end.

Definition fadd : float -> float -> float := SFadd prec emax.
Definition fdiv : float -> float -> float := SFdiv prec emax.

(** [x < y], [x <= y] and [x == y] on doubles; all three are false when
    either side is NaN. *)
Definition flt : float -> float -> bool := SFltb.
Definition fle : float -> float -> bool := SFleb.
Definition feq : float -> float -> bool := SFeqb.

(** [float(n)] for a Python [int]: the double nearest to [n]. *)
Definition float_of_int (n : Z) : float := binary_normalize prec emax n 0 false.

(** [a / b] for two Python [int]s, [b] not zero: the double nearest to the
    exact quotient. *)
Definition exact_int (n : Z) : float :=
  match n with
  | Z0 => S754_zero false
  | Zpos p => S754_finite false p 0
  | Zneg p => S754_finite true p 0
  end.

Definition int_true_div (a b : Z) : float :=
  SFdiv prec emax (exact_int a) (exact_int b).

(** The double nearest to a rational; it reads the literals of this file. *)
Definition float_of_Q (q : Q) : float := int_true_div (Qnum q) (Zpos (Qden q)).

Coercion float_of_Q : Q >-> float.

(** The exact value of a finite double. *)
Definition value (x : float) : Q :=
  match x with
  | S754_finite s m e =>
      let n := if s then Zneg m else Zpos m in
      match e with
      | Z0 => inject_Z n
      | Zpos p => inject_Z (n * 2 ^ Zpos p)
      | Zneg p => n # (2 ^ p)
      end
  | _ => 0%Q
  end.

(** ** Data model *)

Definition datetime := Z.

(** The range of the key column, a 64-bit signed integer. *)
Definition int64_min : Z := -9223372036854775808.
Definition int64_max : Z := 9223372036854775807.

Definition in_int64 (n : Z) : bool := (int64_min <=? n) && (n <=? int64_max).

(** [class Roll(Base)]: one row of the table [rolls]. *)
Module Roll.
Record t := mk {
  id : Z;
  length : float;
  weight : float;
  date_added : option datetime;
  date_removed : option datetime
}.

Definition set_date_removed (r : t) (d : option datetime) : t :=
  mk (id r) (length r) (weight r) (date_added r) d.
End Roll.

(** [class RollCreate(BaseModel)]. *)
Module RollCreate.
Record t := mk { length : float; weight : float }.

(** Neither field is NaN. *)
Definition storable (roll : t) : bool :=
  negb (is_nan (length roll)) && negb (is_nan (weight roll)).
End RollCreate.

(** [class RollStats(BaseModel)]. *)
Module RollStats.
Record t := mk {
  added_count : Z;
  removed_count : Z;
  avg_length : float;
  avg_weight : float;
  min_length : float;
  max_length : float;
  min_weight : float;
  max_weight : float;
  total_weight : float;
  min_gap : float;
  max_gap : float
}.
End RollStats.

(** Exceptions raised by the program and by the libraries under it.  All
    are subclasses of Python's [Exception]. *)
Inductive exn : Type :=
| HTTPException (status_code : Z) (detail : string)
| ValueError (msg : string)
| OverflowError (msg : string)
| IntegrityError (msg : string)
| OperationalError (msg : string)
| DetachedInstanceError.

Definition result (A : Type) : Type := (exn + A)%type.

(** What a caller holds of a [Roll] once the session that produced it is
    closed.  [create_roll] and [get_roll] hand out a [Roll] whose attributes
    are loaded, given in this file by the row itself.  A commit expires the
    attributes of the objects of its session, and a closed session cannot
    load them again: that is what [delete_roll] hands out. *)
Inductive instance : Type :=
| Loaded (r : Roll.t)
| Expired.

Definition attributes (i : instance) : result Roll.t :=
  match i with
  | Loaded r => inr r
  | Expired => inl DetachedInstanceError
  end.

(** ** Sessions

    A computation run inside one session: it reads the table, may replace it,
    and ends with a value or with a raised exception. *)

Definition Store := list Roll.t.

Definition M (A : Type) : Type := Store -> result A * Store.

Definition ret {A} (a : A) : M A := fun s => (inr a, s).

Definition raise {A} (e : exn) : M A := fun s => (inl e, s).

Definition bind {A B} (m : M A) (k : A -> M B) : M B :=
  fun s =>
    match m s with
    | (inl e, s') => (inl e, s')
    | (inr a, s') => k a s'
    end.

Definition lift {A} (r : result A) : M A := fun s => (r, s).

Declare Scope session_scope.
Delimit Scope session_scope with session.
Notation "x <- m ;; k" := (bind m (fun x => k))
  (at level 61, m at next level, right associativity) : session_scope.
Notation "m ;;; k" := (bind m (fun _ => k))
  (at level 61, right associativity) : session_scope.

(** [query(Roll).filter(c).first()] and [query(Roll).filter(c).all()]. *)
Definition query_first (c : Roll.t -> bool) : M (option Roll.t) :=
  fun s => (inr (find c s), s).

Definition query_all (c : Roll.t -> bool) : M (list Roll.t) :=
  fun s => (inr (filter c s), s).

(** A Python [int] bound as a parameter of a statement: the driver refuses
    one that does not fit the 64-bit integer of the store. *)
Definition bind_integer (n : Z) : M Z :=
  if in_int64 n
  then ret n
  else raise (OverflowError "Python int too large to convert to SQLite INTEGER").

(** [query(Roll).filter(Roll.id == roll_id).first()]. *)
Definition query_first_by_id (roll_id : Z) : M (option Roll.t) :=
  bind (bind_integer roll_id)
       (fun k => query_first (fun r => Roll.id r =? k)).

(** The key the store gives to a new row: one when the table is empty, one
    more than the largest key otherwise (SQLite's [INTEGER PRIMARY KEY]). *)
Definition max_id (s : Store) : Z :=
  match s with
  | [] => 0
  | r :: t => fold_left Z.max (map Roll.id t) (Roll.id r)
  end.

Definition next_id (s : Store) : Z := max_id s + 1.

(** [add(db_roll); commit(); refresh(db_roll)].  The INSERT fills the key
    and the column default [date_added = datetime.now]; [date_removed] is
    NULL.  A NaN is bound as NULL, which the NOT NULL columns [length] and
    [weight] refuse.  When the largest key is the largest 64-bit integer
    SQLite tries keys at random and fails if it finds none free; of the two
    only the failure is given here. *)
Definition add_commit_refresh (now : datetime) (roll : RollCreate.t)
  : M Roll.t :=
  fun s =>
    if RollCreate.storable roll then
      if in_int64 (next_id s) then
        let db_roll :=
          Roll.mk (next_id s) (RollCreate.length roll)
                  (RollCreate.weight roll) (Some now) None in
        (inr db_roll, s ++ [db_roll])
      else (inl (OperationalError "database or disk is full"), s)
    else (inl (IntegrityError "NOT NULL constraint failed"), s).

(** [commit()] after [db_roll.date_removed] was assigned:
    [UPDATE rolls SET date_removed = ? WHERE rolls.id = ?]. *)
Definition update_date_removed (db_roll : Roll.t) (row : Roll.t) : Roll.t :=
  if Roll.id row =? Roll.id db_roll
  then Roll.set_date_removed row (Roll.date_removed db_roll)
  else row.

Definition commit_date_removed (db_roll : Roll.t) : M unit :=
  fun s => (inr tt, map (update_date_removed db_roll) s).

(** Truth value of an optional [datetime]: [None] is false, every
    [datetime] is true. *)
Definition truthy {A} (o : option A) : bool :=
  match o with Some _ => true | None => false end.

(** ** Column comparisons as SQL evaluates them *)

Definition dt_ge (col : option datetime) (b : datetime) : bool :=
  match col with Some d => b <=? d | None => false end.

Definition dt_le (col : option datetime) (b : datetime) : bool :=
  match col with Some d => d <=? b | None => false end.

Definition between (col : option datetime) (lo hi : datetime) : bool :=
  dt_ge col lo && dt_le col hi.

(** ** Python's [sum], [min] and [max] over a sequence of floats

    [sum] starts from the integer 0 and adds from the left; [min] and [max]
    keep the first element that no later one is below, or above. *)

Definition py_sum (l : list float) : float := fold_left fadd l zero.

Definition py_min (l : list float) : result float :=
  match l with
  | [] => inl (ValueError "min() arg is an empty sequence")
  | x :: t => inr (fold_left (fun m y => if flt y m then y else m) t x)
  end.

Definition py_max (l : list float) : result float :=
  match l with
  | [] => inl (ValueError "max() arg is an empty sequence")
  | x :: t => inr (fold_left (fun m y => if flt m y then y else m) t x)
  end.

(** [timedelta.total_seconds()] of a difference in microseconds: the
    quotient of two integers, rounded once. *)
Definition total_seconds (td : Z) : float := int_true_div td 1000000.

(** ** [class CRUDRoll] *)

Module CRUDRoll.
Local Open Scope session_scope.

Definition create_roll (now : datetime) (roll : RollCreate.t) : M Roll.t :=
  add_commit_refresh now roll.

(** The reading half of [delete_roll]: the SELECT and the two checks. *)
Definition delete_select (roll_id : Z) : M Roll.t :=
  db_roll <- query_first_by_id roll_id ;;
  match db_roll with
  | None => raise (HTTPException 404 "Roll not found")
  | Some r =>
      if truthy (Roll.date_removed r)
      then raise (HTTPException 400 "Roll already removed")
      else ret r
  end.

(** The writing half: the assignment of [date_removed] and the commit.
    There is no [refresh] after the commit, so what is returned once the
    session is closed is an expired instance. *)
Definition delete_stamp (now : datetime) (db_roll : Roll.t) : M instance :=
  let db_roll' := Roll.set_date_removed db_roll (Some now) in
  commit_date_removed db_roll' ;;;
  ret Expired.

Definition delete_roll (now : datetime) (roll_id : Z) : M instance :=
  db_roll <- delete_select roll_id ;;
  delete_stamp now db_roll.

Definition get_roll (roll_id : Z) : M Roll.t :=
  db_roll <- query_first_by_id roll_id ;;
  match db_roll with
  | None => raise (HTTPException 404 "Roll not found")
  | Some r => ret r
  end.

(** A query under construction is its WHERE clause; [filter] adds a
    conjunct, and an absent bound leaves the query as it is. *)
Definition query := Roll.t -> bool.

Definition query_Roll : query := fun _ => true.

Definition filter_ (q : query) (c : Roll.t -> bool) : query :=
  fun r => q r && c r.

Definition if_not_None {B} (bound : option B) (c : B -> Roll.t -> bool)
           (q : query) : query :=
  match bound with
  | Some b => filter_ q (c b)
  | None => q
  end.

Definition get_rolls
           (length_min length_max weight_min weight_max : option float)
           (date_added_min date_added_max : option datetime)
           (date_removed_min date_removed_max : option datetime)
  : M (list Roll.t) :=
  let q := query_Roll in
  let q := if_not_None length_min (fun b r => fle b (Roll.length r)) q in
  let q := if_not_None length_max (fun b r => fle (Roll.length r) b) q in
  let q := if_not_None weight_min (fun b r => fle b (Roll.weight r)) q in
  let q := if_not_None weight_max (fun b r => fle (Roll.weight r) b) q in
  let q := if_not_None date_added_min
             (fun b r => dt_ge (Roll.date_added r) b) q in
  let q := if_not_None date_added_max
             (fun b r => dt_le (Roll.date_added r) b) q in
  let q := if_not_None date_removed_min
             (fun b r => dt_ge (Roll.date_removed r) b) q in
  let q := if_not_None date_removed_max
             (fun b r => dt_le (Roll.date_removed r) b) q in
  query_all q.

(** The list comprehension of [get_stats]: one gap in hours for each
    removed roll that has both dates. *)
Fixpoint gaps_of (rolls_removed : list Roll.t) : list float :=
  match rolls_removed with
  | [] => []
  | roll :: rest =>
      match Roll.date_removed roll, Roll.date_added roll with
      | Some dr, Some da =>
          fdiv (total_seconds (dr - da)) (float_of_int 3600) :: gaps_of rest
      | _, _ => gaps_of rest
      end
  end.

Definition get_stats (start_date end_date : datetime) : M RollStats.t :=
  rolls_added <-
    query_all (fun r => between (Roll.date_added r) start_date end_date) ;;
  rolls_removed <-
    query_all (fun r => between (Roll.date_removed r) start_date end_date) ;;
  let added_count := Z.of_nat (List.length rolls_added) in
  let removed_count := Z.of_nat (List.length rolls_removed) in
  six <-
    (if 0 <? added_count then
       let lengths := map Roll.length rolls_added in
       let weights := map Roll.weight rolls_added in
       let avg_length := fdiv (py_sum lengths) (float_of_int added_count) in
       let avg_weight := fdiv (py_sum weights) (float_of_int added_count) in
       min_length <- lift (py_min lengths) ;;
       max_length <- lift (py_max lengths) ;;
       min_weight <- lift (py_min weights) ;;
       max_weight <- lift (py_max weights) ;;
       ret (avg_length, avg_weight, min_length, max_length,
            min_weight, max_weight)
     else ret (zero, zero, zero, zero, zero, zero)) ;;
  let '(avg_length, avg_weight, min_length, max_length,
        min_weight, max_weight) := six in
  let total_weight := py_sum (map Roll.weight rolls_added) in
  let gaps := gaps_of rolls_removed in
  min_max_gap <-
    (match gaps with
     | _ :: _ =>
         min_gap <- lift (py_min gaps) ;;
         max_gap <- lift (py_max gaps) ;;
         ret (min_gap, max_gap)
     | [] => ret (zero, zero)
     end) ;;
  let '(min_gap, max_gap) := min_max_gap in
  ret (RollStats.mk added_count removed_count avg_length avg_weight
                    min_length max_length min_weight max_weight
                    total_weight min_gap max_gap).
End CRUDRoll.

(** ** The endpoints

    Each handler wraps its repository call in
    [try: ... except Exception as e: raise HTTPException(500, ...)].
    Every constructor of [exn] is an [Exception], so the handler runs for
    each of them.  What the handler returns is then read by the framework to
    build the response, outside the [try]; an exception there is answered
    with status 500, like any exception that is not an [HTTPException].  The
    framework answers 200 with the value it could read, and answers a raised
    [HTTPException] with its own status code. *)

Module App.
Definition try_except_Exception {A} (body : M A) (handler : exn -> M A)
  : M A :=
  fun s =>
    match body s with
    | (inl e, s') => handler e s'
    | (inr a, s') => (inr a, s')
    end.

Definition internal_server_error {A} (e : exn) : M A :=
  raise (HTTPException 500 "Internal Server Error").

(** [response_model=RollResponse] applied to what a handler returned: the
    five attributes are read. *)
Definition serialize (i : instance) : M Roll.t := lift (attributes i).

Definition create_roll (now : datetime) (roll : RollCreate.t) : M Roll.t :=
  try_except_Exception (CRUDRoll.create_roll now roll) internal_server_error.

Definition delete_roll (now : datetime) (roll_id : Z) : M Roll.t :=
  bind (try_except_Exception (CRUDRoll.delete_roll now roll_id)
                             internal_server_error)
       serialize.

Definition get_roll (roll_id : Z) : M Roll.t :=
  try_except_Exception (CRUDRoll.get_roll roll_id) internal_server_error.

Definition get_rolls
           (length_min length_max weight_min weight_max : option float)
           (date_added_min date_added_max : option datetime)
           (date_removed_min date_removed_max : option datetime)
  : M (list Roll.t) :=
  try_except_Exception
    (CRUDRoll.get_rolls length_min length_max weight_min weight_max
                        date_added_min date_added_max
                        date_removed_min date_removed_max)
    internal_server_error.

Definition get_roll_stats (start_date end_date : datetime) : M RollStats.t :=
  try_except_Exception (CRUDRoll.get_stats start_date end_date)
                       internal_server_error.

(** Status code of the response the framework sends for an outcome. *)
Definition status_of {A} (r : result A) : Z :=
  match r with
  | inr _ => 200
  | inl (HTTPException code _) => code
  | inl _ => 500
  end.

Definition response_status {A} (handler : M A) (s : Store) : Z :=
  status_of (fst (handler s)).
End App.

(** * Properties *)

(** ** Vocabulary of the specification *)

(** The two domain conditions of the repository, as the code raises them,
    and the two refusals of the store. *)
Definition NotFound : exn := HTTPException 404 "Roll not found".
Definition AlreadyRemoved : exn := HTTPException 400 "Roll already removed".
Definition OutOfRange : exn :=
  OverflowError "Python int too large to convert to SQLite INTEGER".
Definition NullRefused : exn := IntegrityError "NOT NULL constraint failed".

(** [id] is the primary key of the table: the ids are 64-bit integers and
    no two rows share one. *)
Definition primary_key (s : Store) : Prop :=
  NoDup (map Roll.id s) /\ Forall (fun r => in_int64 (Roll.id r) = true) s.

(** What a successful delete of [roll_id] at time [now] leaves in the store. *)
Definition stamped (now : datetime) (roll_id : Z) (s : Store) : Store :=
  map (fun row => if Roll.id row =? roll_id
                  then Roll.set_date_removed row (Some now)
                  else row) s.

(** A nullable date lies in the inclusive window from [lo] to [hi]. *)
Definition in_window (col : option datetime) (lo hi : datetime) : Prop :=
  exists d, col = Some d /\ lo <= d <= hi.

Definition in_windowb (col : option datetime) (lo hi : datetime) : bool :=
  match col with
  | Some d => (lo <=? d) && (d <=? hi)
  | None => false
  end.

(** The rolls added, and the rolls removed, within the window. *)
Definition addedSet (lo hi : datetime) (s : Store) : list Roll.t :=
  filter (fun r => in_windowb (Roll.date_added r) lo hi) s.

Definition removedSet (lo hi : datetime) (s : Store) : list Roll.t :=
  filter (fun r => in_windowb (Roll.date_removed r) lo hi) s.

(** The exact sum and the arithmetic mean of rationals. *)
Fixpoint Qsum (l : list Q) : Q :=
  match l with
  | [] => 0%Q
  | x :: t => (x + Qsum t)%Q
  end.

Definition mean (l : list Q) : Q :=
  (Qsum l / inject_Z (Z.of_nat (List.length l)))%Q.

(** [m] is an element of [l] that no element of [l] is below, or above. *)
Definition is_least (m : float) (l : list float) : Prop :=
  In m l /\ forall x, In x l -> flt x m = false.

Definition is_greatest (m : float) (l : list float) : Prop :=
  In m l /\ forall x, In x l -> flt m x = false.

(** The dwell time of a roll in hours, when it has both dates, as a double:
    the elapsed microseconds over 10^6, rounded, then over 3600, rounded. *)
Definition gap_hours (r : Roll.t) : option float :=
  match Roll.date_added r, Roll.date_removed r with
  | Some da, Some dr =>
      Some (fdiv (int_true_div (dr - da) 1000000) (float_of_int 3600))
  | _, _ => None
  end.

(** The same dwell time as an exact number of hours. *)
Definition exact_gap_hours (r : Roll.t) : option Q :=
  match Roll.date_added r, Roll.date_removed r with
  | Some da, Some dr => Some ((dr - da) # 3600000000)
  | _, _ => None
  end.

(** [m] is the least, or the greatest, dwell time among [rolls]. *)
Definition is_min_gap (m : float) (rolls : list Roll.t) : Prop :=
  (exists r, In r rolls /\ gap_hours r = Some m)
  /\ forall r g, In r rolls -> gap_hours r = Some g -> flt g m = false.

Definition is_max_gap (m : float) (rolls : list Roll.t) : Prop :=
  (exists r, In r rolls /\ gap_hours r = Some m)
  /\ forall r g, In r rolls -> gap_hours r = Some g -> flt m g = false.

(** The value a successful [min] or [max] returned. *)
Definition value_of (r : result float) : float :=
  match r with inr q => q | inl _ => zero end.

(** The statistics of an empty window. *)
Definition zero_stats : RollStats.t :=
  RollStats.mk 0 0 zero zero zero zero zero zero zero zero zero.

(** A table of one active roll, added at time 100. *)
Definition one_roll : Store :=
  [Roll.mk 1 (10 # 1) (20 # 1) (Some 100) None].

(** A record satisfies the bounds of a listing: each bound that is present
    holds of the record's field, inclusively; a date bound holds only of a
    record that has the date, and a NaN bound holds of no record. *)
Definition satisfies
           (length_min length_max weight_min weight_max : option float)
           (date_added_min date_added_max : option datetime)
           (date_removed_min date_removed_max : option datetime)
           (r : Roll.t) : Prop :=
  (forall b, length_min = Some b -> fle b (Roll.length r) = true)
  /\ (forall b, length_max = Some b -> fle (Roll.length r) b = true)
  /\ (forall b, weight_min = Some b -> fle b (Roll.weight r) = true)
  /\ (forall b, weight_max = Some b -> fle (Roll.weight r) b = true)
  /\ (forall b, date_added_min = Some b ->
                exists d, Roll.date_added r = Some d /\ b <= d)
  /\ (forall b, date_added_max = Some b ->
                exists d, Roll.date_added r = Some d /\ d <= b)
  /\ (forall b, date_removed_min = Some b ->
                exists d, Roll.date_removed r = Some d /\ b <= d)
  /\ (forall b, date_removed_max = Some b ->
                exists d, Roll.date_removed r = Some d /\ d <= b).

(** A table of one roll, added at time 100 and removed at time 200. *)
Definition removed_roll : Store :=
  [Roll.mk 1 (10 # 1) (20 # 1) (Some 100) (Some 200)].

(** Three rolls of length and weight 0.1, the double nearest to one tenth. *)
Definition tenth_rolls : Store :=
  [Roll.mk 1 (1 # 10) (1 # 10) (Some 1000) None;
   Roll.mk 2 (1 # 10) (1 # 10) (Some 2000) None;
   Roll.mk 3 (1 # 10) (1 # 10) (Some 3000) None].

(** Three rolls of weights 10^16, 1 and -10^16. *)
Definition absorbed_rolls : Store :=
  [Roll.mk 1 (10 # 1) (10000000000000000 # 1) (Some 1000) None;
   Roll.mk 2 (10 # 1) (1 # 1) (Some 2000) None;
   Roll.mk 3 (10 # 1) (-10000000000000000 # 1) (Some 3000) None].

(** One roll removed 1111381949381 microseconds after it was added. *)
Definition slow_roll : Store :=
  [Roll.mk 1 (10 # 1) (20 # 1) (Some 0) (Some 1111381949381)].

(** ** Requests and their effect on the table *)

Inductive operation : Type :=
| Create (roll : RollCreate.t)
| Delete (roll_id : Z)
| GetById (roll_id : Z)
| ListRolls (length_min length_max weight_min weight_max : option float)
            (date_added_min date_added_max : option datetime)
            (date_removed_min date_removed_max : option datetime)
| Stats (start_date end_date : datetime).

(** The table after the endpoint of [o] ran at clock reading [now]. *)
Definition after (now : datetime) (o : operation) (s : Store) : Store :=
  match o with
  | Create roll => snd (App.create_roll now roll s)
  | Delete roll_id => snd (App.delete_roll now roll_id s)
  | GetById roll_id => snd (App.get_roll roll_id s)
  | ListRolls lmin lmax wmin wmax amin amax rmin rmax =>
      snd (App.get_rolls lmin lmax wmin wmax amin amax rmin rmax s)
  | Stats start_date end_date =>
      snd (App.get_roll_stats start_date end_date s)
  end.

(** The invariant of a roll: a removal is not dated before the addition. *)
Definition roll_invariant (r : Roll.t) : Prop :=
  forall da dr,
    Roll.date_added r = Some da -> Roll.date_removed r = Some dr -> da <= dr.

Definition store_invariant (s : Store) : Prop := Forall roll_invariant s.

(** The clock reads no earlier than any recorded addition. *)
Definition clock_not_before (s : Store) (now : datetime) : Prop :=
  forall r da, In r s -> Roll.date_added r = Some da -> da <= now.

(** What may happen to a row: nothing but the stamping of a [date_removed]
    that was not set. *)
Definition evolves (r r' : Roll.t) : Prop :=
  Roll.id r' = Roll.id r
  /\ Roll.length r' = Roll.length r
  /\ Roll.weight r' = Roll.weight r
  /\ Roll.date_added r' = Roll.date_added r
  /\ forall d, Roll.date_removed r = Some d -> Roll.date_removed r' = Some d.

(** ** Two calls of [delete_roll] in flight

    A call of [delete_roll] opens a session of its own and touches the table
    twice: at the SELECT, and at the commit that writes [date_removed].
    Nothing in the code holds the row between the two, so another call may
    run in between.  A schedule says which of two calls moves next. *)

Module Concurrent.
Inductive call : Type :=
| Calling
| Holding (db_roll : Roll.t)
| Returned (res : result instance).

(** One access of a call to the table. *)
Definition advance (now : datetime) (roll_id : Z) (c : call) (s : Store)
  : call * Store :=
  match c with
  | Calling =>
      match CRUDRoll.delete_select roll_id s with
      | (inl e, s') => (Returned (inl e), s')
      | (inr db_roll, s') => (Holding db_roll, s')
      end
  | Holding db_roll =>
      let (res, s') := CRUDRoll.delete_stamp now db_roll s in
      (Returned res, s')
  | Returned res => (Returned res, s)
  end.

Inductive turn : Type := First | Second.

Record config : Type := mk { call1 : call; call2 : call; table : Store }.

Definition start (s : Store) : config := mk Calling Calling s.

(** The first call reads the clock as [now1], the second as [now2]. *)
Definition step (now1 now2 : datetime) (roll_id : Z) (c : config) (t : turn)
  : config :=
  match t with
  | First =>
      let (c1, s') := advance now1 roll_id (call1 c) (table c) in
      mk c1 (call2 c) s'
  | Second =>
      let (c2, s') := advance now2 roll_id (call2 c) (table c) in
      mk (call1 c) c2 s'
  end.

Definition run (now1 now2 : datetime) (roll_id : Z) (sched : list turn)
           (s : Store) : config :=
  fold_left (step now1 now2 roll_id) sched (start s).

(** The six ways to order the two accesses of one call and the two of the
    other, and the two among them in which one call ends before the other
    begins. *)
Definition interleavings : list (list turn) :=
  [ [First; First; Second; Second];
    [First; Second; First; Second];
    [First; Second; Second; First];
    [Second; First; First; Second];
    [Second; First; Second; First];
    [Second; Second; First; First] ].

Definition serial (sched : list turn) : bool :=
  match sched with
  | First :: First :: _ => true
  | Second :: Second :: _ => true
  | _ => false
  end.

Definition succeeded (c : call) : bool :=
  match c with
  | Returned (inr _) => true
  | _ => false
  end.
End Concurrent.

(** Three rolls of lengths 5, 10, 15 and weights 10, 20, 30; the first is
    removed two hours after it was added. *)
Definition three_rolls : Store :=
  [Roll.mk 1 (5 # 1) (10 # 1) (Some 1000) (Some 7200001000);
   Roll.mk 2 (10 # 1) (20 # 1) (Some 2000) None;
   Roll.mk 3 (15 # 1) (30 # 1) (Some 3000) None].

(** ** Histories

    A history is the list of the requests served, each with the clock
    reading at which it ran; [run_ops] is the table it leaves. *)

Fixpoint run_ops (log : list (datetime * operation)) (s : Store) : Store :=
  match log with
  | [] => s
  | (now, o) :: rest => run_ops rest (after now o s)
  end.

(** The clock readings of a history never go back, starting from [t]. *)
Fixpoint nondecreasing (t : datetime) (log : list (datetime * operation))
  : Prop :=
  match log with
  | [] => True
  | (now, _) :: rest => t <= now /\ nondecreasing now rest
  end.

(** What holds of a table at clock reading [t] along such a history. *)
Definition well_formed (s : Store) (t : datetime) : Prop :=
  primary_key s
  /\ store_invariant s
  /\ clock_not_before s t
  /\ Forall (fun r => Roll.date_added r <> None) s.

(** ** The order of doubles

    A double that is not NaN has a rank, and [x < y] is the order of the
    ranks: by sign, then by exponent, then by mantissa. *)

Definition rank (x : float) : option (Z * Z * Z) :=
  match x with
  | S754_nan => None
  | S754_infinity true => Some (-2, 0, 0)
  | S754_infinity false => Some (2, 0, 0)
  | S754_zero _ => Some (0, 0, 0)
  | S754_finite false m e => Some (1, e, Zpos m)
  | S754_finite true m e => Some (-1, - e, Zneg m)
  end.

Definition lex_lt (a b : Z * Z * Z) : Prop :=
  let '(a1, a2, a3) := a in
  let '(b1, b2, b3) := b in
  a1 < b1 \/ (a1 = b1 /\ (a2 < b2 \/ (a2 = b2 /\ a3 < b3))).

Ltac rank_fwd :=
  let H := fresh in
  intros H;
  first [ discriminate H
        | eexists; eexists;
          split; [reflexivity | split; [reflexivity | simpl; lia]] ].

Ltac rank_bwd :=
  let a := fresh in
  let b := fresh in
  let Ha := fresh in
  let Hb := fresh in
  let H := fresh in
  intros (a & b & Ha & Hb & H);
  first [ discriminate Ha
        | discriminate Hb
        | injection Ha as <-; injection Hb as <-; simpl in H;
          first [reflexivity | exfalso; lia] ].

Lemma flt_rank (x y : float) :
  flt x y = true
  <-> exists a b, rank x = Some a /\ rank y = Some b /\ lex_lt a b.
Proof.
  unfold flt, SFltb, SFcompare.
  destruct x as [sx|sx| |sx mx ex], y as [sy|sy| |sy my ey];
    try destruct sx; try destruct sy; simpl;
    try match goal with
        | |- context [Pos.compare_cont Eq ?a ?b] =>
            change (Pos.compare_cont Eq a b) with (Pos.compare a b);
            destruct (Z.compare_spec ex ey); destruct (Pos.compare_spec a b);
            simpl
        end;
    (split; [rank_fwd | rank_bwd]).
Qed.

Lemma flt_irrefl (x : float) : flt x x = false.
Proof.
  destruct (flt x x) eqn:E; [|reflexivity].
  apply flt_rank in E. destruct E as (a & b & Ha & Hb & H).
  rewrite Ha in Hb. injection Hb as <-.
  destruct a as [[a1 a2] a3]. simpl in H. lia.
Qed.

Lemma flt_trans (x y z : float) :
  flt x y = true -> flt y z = true -> flt x z = true.
Proof.
  rewrite !flt_rank. intros (a & b & Ha & Hb & H) (b' & c & Hb' & Hc & H').
  rewrite Hb in Hb'. injection Hb' as <-.
  exists a, c. split; [exact Ha|]. split; [exact Hc|].
  destruct a as [[a1 a2] a3], b as [[b1 b2] b3], c as [[c1 c2] c3].
  simpl in *. lia.
Qed.

(** ** Lookups by key *)

Section Lookup.
Variable roll_id : Z.

Lemma find_absent (s : Store) :
  (forall r, In r s -> Roll.id r <> roll_id) ->
  find (fun x => Roll.id x =? roll_id) s = None.
Proof.
  induction s as [|x s IH]; intros H; simpl; [reflexivity|].
  destruct (Z.eqb_spec (Roll.id x) roll_id) as [E|_].
  - exfalso. apply (H x); [now left | exact E].
  - apply IH. intros r Hr. apply H. now right.
Qed.

Lemma find_present (s : Store) (r : Roll.t) :
  NoDup (map Roll.id s) -> In r s -> Roll.id r = roll_id ->
  find (fun x => Roll.id x =? roll_id) s = Some r.
Proof.
  induction s as [|x s IH]; intros Hpk Hin Hid; [contradiction|].
  simpl in Hpk. inversion Hpk as [|? ? Hx Hs]; subst.
  simpl.
  destruct Hin as [->|Hin].
  - now rewrite Z.eqb_refl.
  - destruct (Z.eqb_spec (Roll.id x) (Roll.id r)) as [E|_].
    + exfalso. apply Hx. rewrite E. now apply in_map.
    + now apply IH.
Qed.

Lemma find_has_id (s : Store) (r : Roll.t) :
  find (fun x => Roll.id x =? roll_id) s = Some r ->
  In r s /\ Roll.id r = roll_id.
Proof.
  intros H. apply find_some in H. destruct H as [Hin Hid].
  split; [exact Hin|]. now apply Z.eqb_eq.
Qed.

Lemma find_stamped (now : datetime) (s : Store) (r : Roll.t) :
  find (fun x => Roll.id x =? roll_id) s = Some r ->
  find (fun x => Roll.id x =? roll_id) (stamped now roll_id s)
  = Some (Roll.set_date_removed r (Some now)).
Proof.
  induction s as [|x s IH]; simpl; [discriminate|].
  destruct (Z.eqb_spec (Roll.id x) roll_id) as [E|N].
  - intros [= ->]. simpl. now rewrite E, Z.eqb_refl.
  - destruct (Z.eqb_spec (Roll.id x) roll_id); [contradiction|]. exact IH.
Qed.

Lemma query_first_by_id_in (s : Store) :
  in_int64 roll_id = true ->
  query_first_by_id roll_id s
  = (inr (find (fun x => Roll.id x =? roll_id) s), s).
Proof.
  intros H. unfold query_first_by_id, bind_integer, bind. now rewrite H.
Qed.

Lemma query_first_by_id_out (s : Store) :
  in_int64 roll_id = false ->
  query_first_by_id roll_id s = (inl OutOfRange, s).
Proof.
  intros H. unfold query_first_by_id, bind_integer, bind. now rewrite H.
Qed.
End Lookup.

Lemma stamped_ids (now : datetime) (roll_id : Z) (s : Store) :
  map Roll.id (stamped now roll_id s) = map Roll.id s.
Proof.
  unfold stamped. rewrite map_map. apply map_ext.
  intros r. now destruct (Roll.id r =? roll_id).
Qed.

Lemma commit_is_stamped (now : datetime) (r : Roll.t) (s : Store) :
  map (update_date_removed (Roll.set_date_removed r (Some now))) s
  = stamped now (Roll.id r) s.
Proof. reflexivity. Qed.

Lemma primary_key_in_range (s : Store) (r : Roll.t) :
  primary_key s -> In r s -> in_int64 (Roll.id r) = true.
Proof.
  intros [_ H] Hin. rewrite Forall_forall in H. now apply H.
Qed.

Lemma stamped_primary_key (now : datetime) (roll_id : Z) (s : Store) :
  primary_key s -> primary_key (stamped now roll_id s).
Proof.
  intros [Hnd Hr]. split; [now rewrite stamped_ids|].
  unfold stamped. apply Forall_map.
  rewrite Forall_forall in *. intros x Hx.
  specialize (Hr x Hx). now destruct (Roll.id x =? roll_id).
Qed.

(** ** The outcomes of [delete_roll], by the row [first()] returns *)

Lemma delete_roll_out_of_range (now : datetime) (roll_id : Z) (s : Store) :
  in_int64 roll_id = false ->
  CRUDRoll.delete_roll now roll_id s = (inl OutOfRange, s).
Proof.
  intros H. unfold CRUDRoll.delete_roll, CRUDRoll.delete_select, bind.
  now rewrite (query_first_by_id_out roll_id s H).
Qed.

Lemma delete_roll_absent (now : datetime) (roll_id : Z) (s : Store) :
  in_int64 roll_id = true ->
  find (fun r => Roll.id r =? roll_id) s = None ->
  CRUDRoll.delete_roll now roll_id s = (inl NotFound, s).
Proof.
  intros Hr H. unfold CRUDRoll.delete_roll, CRUDRoll.delete_select, bind.
  now rewrite (query_first_by_id_in roll_id s Hr), H.
Qed.

Lemma delete_roll_removed (now : datetime) (roll_id : Z) (s : Store)
      (r : Roll.t) (d : datetime) :
  in_int64 roll_id = true ->
  find (fun r => Roll.id r =? roll_id) s = Some r ->
  Roll.date_removed r = Some d ->
  CRUDRoll.delete_roll now roll_id s = (inl AlreadyRemoved, s).
Proof.
  intros Hr H Hd. unfold CRUDRoll.delete_roll, CRUDRoll.delete_select, bind.
  now rewrite (query_first_by_id_in roll_id s Hr), H, Hd.
Qed.

Lemma delete_roll_active (now : datetime) (roll_id : Z) (s : Store)
      (r : Roll.t) :
  in_int64 roll_id = true ->
  find (fun r => Roll.id r =? roll_id) s = Some r ->
  Roll.date_removed r = None ->
  CRUDRoll.delete_roll now roll_id s = (inr Expired, stamped now roll_id s).
Proof.
  intros Hr H Hd. pose proof (find_has_id _ _ _ H) as [_ Hid].
  unfold CRUDRoll.delete_roll, CRUDRoll.delete_select, bind.
  rewrite (query_first_by_id_in roll_id s Hr), H, Hd. simpl.
  unfold CRUDRoll.delete_stamp, bind, commit_date_removed, ret.
  now rewrite commit_is_stamped, Hid.
Qed.

(** ** C1: outcomes of the repository delete *)

(** C1, as the code has it.  In a table keyed by [id], [delete_roll] raises
    [OverflowError] for an id outside the 64-bit range of the key; fails
    with [NotFound] when the id is in range and no row has it; fails with
    [AlreadyRemoved] when the row with the id has [date_removed] set; the
    table is as it was in all three cases.  Otherwise it returns without
    raising and stamps the row of the table with the current time as
    [date_removed], after which a second delete of the same id, at any later
    reading of the clock, fails with [AlreadyRemoved]. *)
Theorem delete_roll_outcomes (s : Store) (now : datetime) (roll_id : Z) :
  primary_key s ->
  (in_int64 roll_id = false ->
   CRUDRoll.delete_roll now roll_id s = (inl OutOfRange, s))
  /\
  (in_int64 roll_id = true ->
   (forall r, In r s -> Roll.id r <> roll_id) ->
   CRUDRoll.delete_roll now roll_id s = (inl NotFound, s))
  /\
  (forall r d, In r s -> Roll.id r = roll_id -> Roll.date_removed r = Some d ->
   CRUDRoll.delete_roll now roll_id s = (inl AlreadyRemoved, s))
  /\
  (forall r, In r s -> Roll.id r = roll_id -> Roll.date_removed r = None ->
   let r' := Roll.set_date_removed r (Some now) in
   let s' := stamped now roll_id s in
   (exists i, CRUDRoll.delete_roll now roll_id s = (inr i, s'))
   /\ Roll.date_removed r' = Some now
   /\ In r' s'
   /\ primary_key s'
   /\ forall now',
       CRUDRoll.delete_roll now' roll_id s' = (inl AlreadyRemoved, s')).
Proof.
  intros Hpk. split; [|split; [|split]].
  - apply delete_roll_out_of_range.
  - intros Hr Habs. apply delete_roll_absent; [exact Hr|].
    now apply find_absent.
  - intros r d Hin Hid Hd.
    apply delete_roll_removed with (r := r) (d := d); [| |exact Hd].
    + rewrite <- Hid. now apply (primary_key_in_range s).
    + now apply find_present; [apply Hpk| |].
  - intros r Hin Hid Hd r' s'.
    assert (Hr : in_int64 roll_id = true)
      by (rewrite <- Hid; now apply (primary_key_in_range s)).
    pose proof (find_present roll_id s r (proj1 Hpk) Hin Hid) as Hfind.
    pose proof (find_stamped roll_id now s r Hfind) as Hfind'.
    fold r' s' in Hfind'.
    split; [exists Expired; now apply delete_roll_active with (r := r)|].
    split; [reflexivity|].
    split; [now apply (find_has_id roll_id s' r')|].
    split; [now apply stamped_primary_key|].
    intros now'.
    now apply delete_roll_removed with (r := r') (d := now).
Qed.

(** ** C8 and C10: create, and the two reads *)

Lemma fold_max_ge_init (l : list Z) (a b : Z) :
  a <= b -> a <= fold_left Z.max l b.
Proof.
  revert b. induction l as [|c l IH]; intros b Hab; simpl; [exact Hab|].
  apply IH. lia.
Qed.

Lemma fold_max_ge_elem (l : list Z) (a b : Z) :
  In a l -> a <= fold_left Z.max l b.
Proof.
  revert b. induction l as [|c l IH]; intros b; simpl; [contradiction|].
  intros [->|Hin].
  - apply fold_max_ge_init. lia.
  - now apply IH.
Qed.

Lemma max_id_upper (s : Store) (r : Roll.t) :
  In r s -> Roll.id r <= max_id s.
Proof.
  destruct s as [|x s]; [contradiction|]. simpl.
  intros [->|Hin].
  - apply fold_max_ge_init. lia.
  - apply fold_max_ge_elem. now apply in_map.
Qed.

Lemma next_id_fresh (s : Store) (r : Roll.t) :
  In r s -> Roll.id r <> next_id s.
Proof.
  intros Hin. pose proof (max_id_upper s r Hin). unfold next_id. lia.
Qed.

Lemma feq_refl (x : float) : is_nan x = false -> feq x x = true.
Proof.
  unfold feq, SFeqb, SFcompare.
  destruct x as [sx|sx| |sx mx ex]; try destruct sx; simpl;
    try reflexivity; try discriminate; intros _;
    change (Pos.compare_cont Eq mx mx) with (Pos.compare mx mx);
    now rewrite Z.compare_refl, Pos.compare_refl.
Qed.

(** What [create_roll] does, by its three cases. *)
Lemma create_roll_cases (now : datetime) (roll : RollCreate.t) (s : Store) :
  (RollCreate.storable roll = true /\ in_int64 (next_id s) = true
   /\ CRUDRoll.create_roll now roll s
      = (inr (Roll.mk (next_id s) (RollCreate.length roll)
                      (RollCreate.weight roll) (Some now) None),
         s ++ [Roll.mk (next_id s) (RollCreate.length roll)
                       (RollCreate.weight roll) (Some now) None]))
  \/ (exists e, CRUDRoll.create_roll now roll s = (inl e, s)).
Proof.
  unfold CRUDRoll.create_roll, add_commit_refresh.
  destruct (RollCreate.storable roll); [|right; eauto].
  destruct (in_int64 (next_id s)); [left; auto | right; eauto].
Qed.

(** C8, as the code has it.  When neither input is NaN and the next key
    fits the 64-bit key column, [create_roll] appends one row to the table
    and returns it; the row's length and weight equal the inputs, its
    [date_added] is the current time, it has no [date_removed], and its key
    is chosen by the store and is the key of no existing row; the existing
    rows are the table's prefix, unchanged.  When an input is NaN,
    [create_roll] raises and the table is as it was. *)
Theorem create_roll_inserts (s : Store) (now : datetime) (roll : RollCreate.t) :
  (RollCreate.storable roll = true -> in_int64 (next_id s) = true ->
   exists r,
     CRUDRoll.create_roll now roll s = (inr r, s ++ [r])
     /\ feq (Roll.length r) (RollCreate.length roll) = true
     /\ feq (Roll.weight r) (RollCreate.weight roll) = true
     /\ Roll.date_added r = Some now
     /\ Roll.date_removed r = None
     /\ Roll.id r = next_id s
     /\ in_int64 (Roll.id r) = true
     /\ (forall r0, In r0 s -> Roll.id r0 <> Roll.id r)
     /\ firstn (List.length s) (snd (CRUDRoll.create_roll now roll s)) = s)
  /\ (RollCreate.storable roll = false ->
      CRUDRoll.create_roll now roll s = (inl NullRefused, s)).
Proof.
  unfold CRUDRoll.create_roll, add_commit_refresh. split.
  - intros Hs Hk. rewrite Hs, Hk. eexists. split; [reflexivity|]. simpl.
    apply andb_true_iff in Hs. destruct Hs as [Hl Hw].
    apply negb_true_iff in Hl, Hw.
    split; [now apply feq_refl|]. split; [now apply feq_refl|].
    repeat (split; [reflexivity|]).
    split; [exact Hk|]. split; [apply next_id_fresh|].
    rewrite firstn_app, firstn_all, Nat.sub_diag. simpl. apply app_nil_r.
  - intros Hs. now rewrite Hs.
Qed.

Lemma get_roll_store (roll_id : Z) (s : Store) :
  snd (CRUDRoll.get_roll roll_id s) = s.
Proof.
  unfold CRUDRoll.get_roll, bind, query_first_by_id, bind_integer, bind.
  destruct (in_int64 roll_id); simpl; [|reflexivity].
  now destruct (find _ s).
Qed.

(** C10.  [get_roll] and [get_rolls] leave the table as they found it,
    whatever the id and the bounds and whether the lookup succeeds or
    raises. *)
Theorem reads_leave_store (s : Store) (roll_id : Z)
        (length_min length_max weight_min weight_max : option float)
        (date_added_min date_added_max : option datetime)
        (date_removed_min date_removed_max : option datetime) :
  snd (CRUDRoll.get_roll roll_id s) = s
  /\ snd (CRUDRoll.get_rolls length_min length_max weight_min weight_max
                             date_added_min date_added_max
                             date_removed_min date_removed_max s) = s
  /\ snd (App.get_roll roll_id s) = s
  /\ snd (App.get_rolls length_min length_max weight_min weight_max
                        date_added_min date_added_max
                        date_removed_min date_removed_max s) = s.
Proof.
  pose proof (get_roll_store roll_id s) as G.
  split; [exact G|]. split; [reflexivity|]. split; [|reflexivity].
  unfold App.get_roll, App.try_except_Exception.
  destruct (CRUDRoll.get_roll roll_id s) as [[e|r] s'] eqn:E;
    simpl in G; now subst.
Qed.

(** ** Extrema *)

Lemma flt_asym (x y : float) : flt x y = true -> flt y x = false.
Proof.
  intros H. destruct (flt y x) eqn:E; [|reflexivity].
  pose proof (flt_trans x y x H E) as C. now rewrite flt_irrefl in C.
Qed.

Lemma fold_min_is_least (t : list float) (x : float) :
  let m := fold_left (fun m y => if flt y m then y else m) t x in
  is_least m (x :: t) /\ (m = x \/ flt m x = true).
Proof.
  revert x. induction t as [|y t IH]; intros x; simpl.
  - split; [|now left]. split; [now left|].
    intros z [<-|[]]. apply flt_irrefl.
  - destruct (IH (if flt y x then y else x)) as [[Hin Hle] Hx].
    set (m := fold_left _ t _) in *.
    destruct (flt y x) eqn:E.
    + assert (Hmx : flt m x = true).
      { destruct Hx as [->|Hx]; [exact E | now apply flt_trans with y]. }
      split; [|now right]. split.
      * destruct Hin as [Hin|Hin]; [right; now left | now right; right].
      * intros z [<-|[<-|Hz]].
        -- now apply flt_asym.
        -- apply Hle. now left.
        -- apply Hle. now right.
    + split; [|exact Hx]. split.
      * destruct Hin as [Hin|Hin]; [now left | now right; right].
      * intros z [<-|[<-|Hz]].
        -- apply Hle. now left.
        -- destruct Hx as [->|Hx]; [exact E|].
           destruct (flt y m) eqn:C; [|reflexivity].
           now rewrite (flt_trans y m x C Hx) in E.
        -- apply Hle. now right.
Qed.

Lemma fold_max_is_greatest (t : list float) (x : float) :
  let m := fold_left (fun m y => if flt m y then y else m) t x in
  is_greatest m (x :: t) /\ (m = x \/ flt x m = true).
Proof.
  revert x. induction t as [|y t IH]; intros x; simpl.
  - split; [|now left]. split; [now left|].
    intros z [<-|[]]. apply flt_irrefl.
  - destruct (IH (if flt x y then y else x)) as [[Hin Hle] Hx].
    set (m := fold_left _ t _) in *.
    destruct (flt x y) eqn:E.
    + assert (Hmx : flt x m = true).
      { destruct Hx as [->|Hx]; [exact E | now apply flt_trans with y]. }
      split; [|now right]. split.
      * destruct Hin as [Hin|Hin]; [right; now left | now right; right].
      * intros z [<-|[<-|Hz]].
        -- now apply flt_asym.
        -- apply Hle. now left.
        -- apply Hle. now right.
    + split; [|exact Hx]. split.
      * destruct Hin as [Hin|Hin]; [now left | now right; right].
      * intros z [<-|[<-|Hz]].
        -- apply Hle. now left.
        -- destruct Hx as [->|Hx]; [exact E|].
           destruct (flt m y) eqn:C; [|reflexivity].
           now rewrite (flt_trans x m y Hx C) in E.
        -- apply Hle. now right.
Qed.

Lemma py_min_nonempty (l : list float) :
  l <> [] ->
  py_min l = inr (value_of (py_min l)) /\ is_least (value_of (py_min l)) l.
Proof.
  destruct l as [|x t]; [congruence|]. intros _. simpl.
  split; [reflexivity | apply fold_min_is_least].
Qed.

Lemma py_max_nonempty (l : list float) :
  l <> [] ->
  py_max l = inr (value_of (py_max l)) /\ is_greatest (value_of (py_max l)) l.
Proof.
  destruct l as [|x t]; [congruence|]. intros _. simpl.
  split; [reflexivity | apply fold_max_is_greatest].
Qed.

(** ** [get_stats] evaluated *)

Lemma between_in_windowb (col : option datetime) (lo hi : datetime) :
  between col lo hi = in_windowb col lo hi.
Proof. now destruct col. Qed.

Lemma in_windowb_spec (col : option datetime) (lo hi : datetime) :
  in_windowb col lo hi = true <-> in_window col lo hi.
Proof.
  unfold in_window. destruct col as [d|]; simpl.
  - rewrite andb_true_iff, !Z.leb_le. split.
    + intros H. now exists d.
    + now intros (d' & [= <-] & H).
  - split; [discriminate | now intros (d & [=] & _)].
Qed.

Lemma in_addedSet (lo hi : datetime) (s : Store) (r : Roll.t) :
  In r (addedSet lo hi s) <-> In r s /\ in_window (Roll.date_added r) lo hi.
Proof. unfold addedSet. now rewrite filter_In, in_windowb_spec. Qed.

Lemma in_removedSet (lo hi : datetime) (s : Store) (r : Roll.t) :
  In r (removedSet lo hi s) <-> In r s /\ in_window (Roll.date_removed r) lo hi.
Proof. unfold removedSet. now rewrite filter_In, in_windowb_spec. Qed.

(** [get_stats] never raises and never writes; its eleven fields are these. *)
Lemma get_stats_eval (s : Store) (lo hi : datetime) :
  let A := addedSet lo hi s in
  let R := removedSet lo hi s in
  let G := CRUDRoll.gaps_of R in
  let n := float_of_int (Z.of_nat (List.length A)) in
  let on_added (v : float) := match A with [] => zero | _ :: _ => v end in
  let on_gaps (v : float) := match G with [] => zero | _ :: _ => v end in
  CRUDRoll.get_stats lo hi s =
  (inr (RollStats.mk
          (Z.of_nat (List.length A)) (Z.of_nat (List.length R))
          (on_added (fdiv (py_sum (map Roll.length A)) n))
          (on_added (fdiv (py_sum (map Roll.weight A)) n))
          (on_added (value_of (py_min (map Roll.length A))))
          (on_added (value_of (py_max (map Roll.length A))))
          (on_added (value_of (py_min (map Roll.weight A))))
          (on_added (value_of (py_max (map Roll.weight A))))
          (py_sum (map Roll.weight A))
          (on_gaps (value_of (py_min G)))
          (on_gaps (value_of (py_max G)))), s).
Proof.
  intros A R G n on_added on_gaps.
  unfold CRUDRoll.get_stats, bind, query_all.
  rewrite (filter_ext (fun r => between (Roll.date_added r) lo hi)
                      (fun r => in_windowb (Roll.date_added r) lo hi))
    by (intros r; apply between_in_windowb).
  rewrite (filter_ext (fun r => between (Roll.date_removed r) lo hi)
                      (fun r => in_windowb (Roll.date_removed r) lo hi))
    by (intros r; apply between_in_windowb).
  fold (addedSet lo hi s) (removedSet lo hi s). fold A R G.
  subst n on_added on_gaps.
  destruct A as [|a A']; destruct G as [|g G']; reflexivity.
Qed.

(** ** C3: a window whose start is after its end *)

Lemma in_windowb_inverted (col : option datetime) (lo hi : datetime) :
  lo > hi -> in_windowb col lo hi = false.
Proof.
  intros H. destruct col as [d|]; simpl; [|reflexivity].
  apply andb_false_iff.
  destruct (Z.leb_spec lo d); [right | now left].
  apply Z.leb_gt. lia.
Qed.

Lemma filter_none {A} (f : A -> bool) (l : list A) :
  (forall a, f a = false) -> filter f l = [].
Proof.
  intros H. induction l as [|a l IH]; simpl; [reflexivity|].
  now rewrite H.
Qed.

(** C3, as the code has it.  [get_stats] has no check of the order of its
    bounds: when the start is after the end, no date lies in the window, and
    the call returns the statistics of an empty window, every field zero,
    without raising and without touching the table. *)
Theorem get_stats_inverted_window (s : Store) (start_date end_date : datetime) :
  start_date > end_date ->
  CRUDRoll.get_stats start_date end_date s = (inr zero_stats, s).
Proof.
  intros H. rewrite get_stats_eval.
  assert (HA : addedSet start_date end_date s = []).
  { apply filter_none. intros r. now apply in_windowb_inverted. }
  assert (HR : removedSet start_date end_date s = []).
  { apply filter_none. intros r. now apply in_windowb_inverted. }
  now rewrite HA, HR.
Qed.

(** ** C4: statistics of the rolls added in the window *)

(** C4, as the code has it.  With [A] the rolls whose [date_added] lies in
    the window, [get_stats] returns without raising and [added_count] is the
    size of [A].  When [A] is not empty, each average is the double-precision
    quotient, by the count, of the double-precision sum of its column taken
    from the left over [A], and each extremum is an element of its column
    over [A] that no element is below, or above.  When [A] is empty all six
    are the number zero.  [total_weight] is the double-precision sum of the
    weights over [A] taken from the left, zero when [A] is empty. *)
Theorem get_stats_added (s : Store) (start_date end_date : datetime) :
  let A := addedSet start_date end_date s in
  let n := float_of_int (Z.of_nat (List.length A)) in
  exists st,
    CRUDRoll.get_stats start_date end_date s = (inr st, s)
    /\ (forall r, In r A <->
                  In r s /\ in_window (Roll.date_added r) start_date end_date)
    /\ RollStats.added_count st = Z.of_nat (List.length A)
    /\ (A <> [] ->
        RollStats.avg_length st
        = fdiv (fold_left fadd (map Roll.length A) zero) n
        /\ RollStats.avg_weight st
           = fdiv (fold_left fadd (map Roll.weight A) zero) n
        /\ is_least (RollStats.min_length st) (map Roll.length A)
        /\ is_greatest (RollStats.max_length st) (map Roll.length A)
        /\ is_least (RollStats.min_weight st) (map Roll.weight A)
        /\ is_greatest (RollStats.max_weight st) (map Roll.weight A))
    /\ (A = [] ->
        RollStats.avg_length st = zero /\ RollStats.avg_weight st = zero
        /\ RollStats.min_length st = zero /\ RollStats.max_length st = zero
        /\ RollStats.min_weight st = zero /\ RollStats.max_weight st = zero
        /\ RollStats.total_weight st = zero)
    /\ RollStats.total_weight st = fold_left fadd (map Roll.weight A) zero.
Proof.
  intros A n. subst n. eexists. split; [apply get_stats_eval|].
  fold A. simpl.
  split; [intros r; apply in_addedSet|].
  split; [reflexivity|].
  split; [|split].
  - intros HA.
    assert (HL : map Roll.length A <> []) by (destruct A; simpl; congruence).
    assert (HW : map Roll.weight A <> []) by (destruct A; simpl; congruence).
    destruct A as [|a A'] eqn:EA; [congruence|]. rewrite <- EA in *.
    split; [reflexivity|]. split; [reflexivity|].
    split; [apply (py_min_nonempty _ HL)|].
    split; [apply (py_max_nonempty _ HL)|].
    split; [apply (py_min_nonempty _ HW) | apply (py_max_nonempty _ HW)].
  - intros ->. simpl. repeat split; reflexivity.
  - reflexivity.
Qed.

(** ** C5: statistics of the rolls removed in the window *)

Lemma gaps_of_sound (rolls : list Roll.t) (g : float) :
  In g (CRUDRoll.gaps_of rolls) ->
  exists r, In r rolls /\ gap_hours r = Some g.
Proof.
  induction rolls as [|r rolls IH]; simpl; [contradiction|].
  assert (Hrest : In g (CRUDRoll.gaps_of rolls) ->
                  exists r0, (r = r0 \/ In r0 rolls) /\ gap_hours r0 = Some g).
  { intros Hin. destruct (IH Hin) as (r0 & H0 & H1).
    exists r0. split; [now right | exact H1]. }
  destruct (Roll.date_removed r) as [dr|] eqn:Er;
    destruct (Roll.date_added r) as [da|] eqn:Ea; simpl; try exact Hrest.
  intros [<-|Hin]; [|now apply Hrest].
  exists r. split; [now left|].
  unfold gap_hours. now rewrite Ea, Er.
Qed.

Lemma gaps_of_complete (rolls : list Roll.t) (r : Roll.t) (g : float) :
  In r rolls -> gap_hours r = Some g -> In g (CRUDRoll.gaps_of rolls).
Proof.
  induction rolls as [|x rolls IH]; simpl; [contradiction|].
  intros [->|Hin] Hg.
  - unfold gap_hours in Hg.
    destruct (Roll.date_added r) as [da|]; [|discriminate].
    destruct (Roll.date_removed r) as [dr|]; [|discriminate].
    injection Hg as <-. now left.
  - specialize (IH Hin Hg).
    destruct (Roll.date_removed x); [destruct (Roll.date_added x)|];
      simpl; auto.
Qed.

Lemma min_gap_of (rolls : list Roll.t) (m : float) :
  is_least m (CRUDRoll.gaps_of rolls) -> is_min_gap m rolls.
Proof.
  intros [Hin Hle]. split.
  - now apply gaps_of_sound.
  - intros r g Hr Hg. apply Hle. now apply gaps_of_complete with r.
Qed.

Lemma max_gap_of (rolls : list Roll.t) (m : float) :
  is_greatest m (CRUDRoll.gaps_of rolls) -> is_max_gap m rolls.
Proof.
  intros [Hin Hle]. split.
  - now apply gaps_of_sound.
  - intros r g Hr Hg. apply Hle. now apply gaps_of_complete with r.
Qed.

(** C5, as the code has it.  With [R] the rolls whose [date_removed] lies
    in the window, whatever their [date_added], [get_stats] returns without
    raising and [removed_count] is the size of [R].  The gap of a roll is a
    double: its elapsed microseconds over 10^6, rounded, then over 3600,
    rounded again.  When some roll of [R] has both dates, [min_gap] and
    [max_gap] are the gaps of rolls of [R] that no gap over [R] is below, or
    above; when none has, both are the number zero. *)
Theorem get_stats_removed (s : Store) (start_date end_date : datetime) :
  let R := removedSet start_date end_date s in
  exists st,
    CRUDRoll.get_stats start_date end_date s = (inr st, s)
    /\ (forall r, In r R <->
                  In r s /\ in_window (Roll.date_removed r) start_date end_date)
    /\ RollStats.removed_count st = Z.of_nat (List.length R)
    /\ ((exists r, In r R /\ gap_hours r <> None) ->
        is_min_gap (RollStats.min_gap st) R
        /\ is_max_gap (RollStats.max_gap st) R)
    /\ ((forall r, In r R -> gap_hours r = None) ->
        RollStats.min_gap st = zero /\ RollStats.max_gap st = zero).
Proof.
  intros R. eexists. split; [apply get_stats_eval|].
  fold R. simpl.
  split; [intros r; apply in_removedSet|].
  split; [reflexivity|].
  split.
  - intros (r & Hr & Hg).
    destruct (gap_hours r) as [g|] eqn:Eg; [clear Hg | congruence].
    pose proof (gaps_of_complete R r g Hr Eg) as Hx.
    assert (HG : CRUDRoll.gaps_of R <> [])
      by (destruct (CRUDRoll.gaps_of R); [contradiction | congruence]).
    destruct (CRUDRoll.gaps_of R) as [|g0 G'] eqn:EG; [congruence|].
    rewrite <- EG in *. split.
    + apply min_gap_of. now apply py_min_nonempty.
    + apply max_gap_of. now apply py_max_nonempty.
  - intros Hnone.
    destruct (CRUDRoll.gaps_of R) as [|g0 G'] eqn:EG; [now split|].
    exfalso.
    destruct (gaps_of_sound R g0) as (r & Hr & Hg).
    { rewrite EG. now left. }
    rewrite (Hnone r Hr) in Hg. discriminate.
Qed.

(** ** C6: the filtered listing *)

Lemma if_not_None_true {B} (bound : option B) (c : B -> Roll.t -> bool)
      (q : CRUDRoll.query) (r : Roll.t) :
  CRUDRoll.if_not_None bound c q r = true
  <-> q r = true /\ forall b, bound = Some b -> c b r = true.
Proof.
  destruct bound as [b|]; simpl.
  - unfold CRUDRoll.filter_. rewrite andb_true_iff. split.
    + intros [Hq Hc]. split; [exact Hq|]. now intros b' [= <-].
    + intros [Hq Hc]. split; [exact Hq | now apply Hc].
  - split; [intros Hq; split; [exact Hq | discriminate] | now intros [Hq _]].
Qed.

Lemma dt_ge_true (col : option datetime) (b : datetime) :
  dt_ge col b = true <-> exists d, col = Some d /\ b <= d.
Proof.
  destruct col as [d|]; simpl.
  - rewrite Z.leb_le. split; [intros H; now exists d|].
    now intros (d' & [= <-] & H).
  - split; [discriminate | now intros (d & [=] & _)].
Qed.

Lemma dt_le_true (col : option datetime) (b : datetime) :
  dt_le col b = true <-> exists d, col = Some d /\ d <= b.
Proof.
  destruct col as [d|]; simpl.
  - rewrite Z.leb_le. split; [intros H; now exists d|].
    now intros (d' & [= <-] & H).
  - split; [discriminate | now intros (d & [=] & _)].
Qed.

Lemma iff_forall_bound {B} (bound : option B) (P Q : B -> Prop) :
  (forall b, P b <-> Q b) ->
  (forall b, bound = Some b -> P b) <-> (forall b, bound = Some b -> Q b).
Proof.
  intros H. split; intros H0 b Hb; apply H; now apply H0.
Qed.

(** C6.  [get_rolls] never raises: for every table and every choice of the
    eight optional bounds it returns a list, and that list holds exactly the
    rows of the table that satisfy every bound present, in table order; it
    is what any decision procedure for [satisfies] keeps of the table.  When
    no row satisfies the bounds the list is empty. *)
Theorem get_rolls_filters (s : Store)
        (length_min length_max weight_min weight_max : option float)
        (date_added_min date_added_max : option datetime)
        (date_removed_min date_removed_max : option datetime) :
  let sat := satisfies length_min length_max weight_min weight_max
                       date_added_min date_added_max
                       date_removed_min date_removed_max in
  exists l,
    CRUDRoll.get_rolls length_min length_max weight_min weight_max
                       date_added_min date_added_max
                       date_removed_min date_removed_max s = (inr l, s)
    /\ (forall r, In r l <-> In r s /\ sat r)
    /\ (forall f : Roll.t -> bool,
           (forall r, f r = true <-> sat r) -> l = filter f s)
    /\ ((forall r, In r s -> ~ sat r) -> l = []).
Proof.
  intros sat. eexists. split; [reflexivity|].
  match goal with |- context [filter ?q0 s] => set (q := q0) end.
  assert (Hq : forall r, q r = true <-> sat r).
  { intros r. subst q sat. unfold satisfies.
    rewrite !if_not_None_true. unfold CRUDRoll.query_Roll.
    rewrite (iff_forall_bound date_added_min _ _
               (fun b => dt_ge_true (Roll.date_added r) b)).
    rewrite (iff_forall_bound date_added_max _ _
               (fun b => dt_le_true (Roll.date_added r) b)).
    rewrite (iff_forall_bound date_removed_min _ _
               (fun b => dt_ge_true (Roll.date_removed r) b)).
    rewrite (iff_forall_bound date_removed_max _ _
               (fun b => dt_le_true (Roll.date_removed r) b)).
    tauto. }
  split; [|split].
  - intros r. now rewrite filter_In, Hq.
  - intros f Hf. apply filter_ext. intros r.
    destruct (q r) eqn:E1; destruct (f r) eqn:E2; try reflexivity.
    + apply Hq, Hf in E1. congruence.
    + apply Hf, Hq in E2. congruence.
  - intros Hnone. induction s as [|x s IH]; simpl; [reflexivity|].
    destruct (q x) eqn:E.
    + exfalso. apply (Hnone x); [now left | now apply Hq].
    + apply IH. intros r Hr. apply Hnone. now right.
Qed.

(** ** C2: status codes of the endpoints *)

(** Whatever the repository call does, the handler around it answers 200 or
    500: an exception of the repository never reaches the framework. *)
Lemma handler_answers_200_or_500 {A} (body : M A) (s : Store) :
  App.response_status
    (App.try_except_Exception body App.internal_server_error) s
  = match fst (body s) with inr _ => 200 | inl _ => 500 end.
Proof.
  unfold App.response_status, App.try_except_Exception.
  now destruct (body s) as [[e|a] s'].
Qed.

(** [delete_roll] raises or returns an expired instance. *)
Lemma delete_roll_result (now : datetime) (roll_id : Z) (s : Store) :
  (exists e, fst (CRUDRoll.delete_roll now roll_id s) = inl e)
  \/ fst (CRUDRoll.delete_roll now roll_id s) = inr Expired.
Proof.
  unfold CRUDRoll.delete_roll, bind.
  destruct (CRUDRoll.delete_select roll_id s) as [[e|r] s'];
    [left; now exists e | now right].
Qed.

Lemma delete_endpoint_answers_500 (now : datetime) (roll_id : Z) (s : Store) :
  App.response_status (App.delete_roll now roll_id) s = 500.
Proof.
  unfold App.response_status, App.delete_roll, App.try_except_Exception, bind.
  destruct (delete_roll_result now roll_id s) as [[e H]|H];
    destruct (CRUDRoll.delete_roll now roll_id s) as [[e'|i] s'];
    simpl in H; try discriminate; try reflexivity.
  now injection H as ->.
Qed.

Lemma delete_endpoint_never_404_400 (now : datetime) (roll_id : Z) (s : Store) :
  App.response_status (App.delete_roll now roll_id) s <> 404
  /\ App.response_status (App.delete_roll now roll_id) s <> 400.
Proof. rewrite delete_endpoint_answers_500. split; discriminate. Qed.

Lemma get_endpoint_never_404 (roll_id : Z) (s : Store) :
  App.response_status (App.get_roll roll_id) s <> 404.
Proof.
  unfold App.get_roll. rewrite handler_answers_200_or_500.
  destruct (fst _); discriminate.
Qed.

(** C2, evaluated.  The repository raises the 404 and the 400 conditions,
    and the handlers' [except Exception] turns each into status 500: deleting
    the absent id 9999, deleting the roll 1 that is already removed, and
    fetching the absent id 9999 are all answered 500. *)
Theorem endpoints_answer_500_for_domain_conditions :
  (fst (CRUDRoll.delete_roll 300 9999 one_roll) = inl NotFound
   /\ App.response_status (App.delete_roll 300 9999) one_roll = 500)
  /\ (fst (CRUDRoll.delete_roll 300 1 removed_roll) = inl AlreadyRemoved
      /\ App.response_status (App.delete_roll 300 1) removed_roll = 500)
  /\ (fst (CRUDRoll.get_roll 9999 one_roll) = inl NotFound
      /\ App.response_status (App.get_roll 9999) one_roll = 500).
Proof. repeat split; reflexivity. Qed.

(** ** C7: the invariant of a roll and its single transition *)

Lemma evolves_refl (r : Roll.t) : evolves r r.
Proof. unfold evolves. auto. Qed.

Lemma Forall2_evolves_refl (s : Store) : Forall2 evolves s s.
Proof. induction s; constructor; auto using evolves_refl. Qed.

Lemma handler_store {A} (body : M A) (s : Store) :
  snd (App.try_except_Exception body App.internal_server_error s)
  = snd (body s).
Proof.
  unfold App.try_except_Exception. now destruct (body s) as [[e|a] s'].
Qed.

Lemma delete_endpoint_store (now : datetime) (roll_id : Z) (s : Store) :
  snd (App.delete_roll now roll_id s)
  = snd (CRUDRoll.delete_roll now roll_id s).
Proof.
  unfold App.delete_roll, App.try_except_Exception, bind.
  now destruct (CRUDRoll.delete_roll now roll_id s) as [[e|i] s'].
Qed.

Lemma delete_roll_store (now : datetime) (roll_id : Z) (s : Store) :
  snd (CRUDRoll.delete_roll now roll_id s) = s
  \/ exists r,
      in_int64 roll_id = true
      /\ find (fun r => Roll.id r =? roll_id) s = Some r
      /\ Roll.date_removed r = None
      /\ CRUDRoll.delete_roll now roll_id s
         = (inr Expired, stamped now roll_id s).
Proof.
  destruct (in_int64 roll_id) eqn:Hr;
    [|left; now rewrite (delete_roll_out_of_range now roll_id s Hr)].
  destruct (find (fun r => Roll.id r =? roll_id) s) as [r|] eqn:E.
  - destruct (Roll.date_removed r) as [d|] eqn:Ed.
    + left. now rewrite (delete_roll_removed now roll_id s r d Hr E Ed).
    + right. exists r. repeat split; try assumption.
      now apply delete_roll_active with (r := r).
  - left. now rewrite (delete_roll_absent now roll_id s Hr E).
Qed.

Lemma get_stats_store (lo hi : datetime) (s : Store) :
  snd (CRUDRoll.get_stats lo hi s) = s.
Proof. pose proof (get_stats_eval s lo hi) as H. simpl in H. now rewrite H. Qed.

(** Rows whose [date_removed] is set are left alone by a stamping of
    rows in which it is not. *)
Lemma stamped_evolves (now : datetime) (roll_id : Z) (s : Store) :
  (forall r, In r s -> Roll.id r = roll_id -> Roll.date_removed r = None) ->
  Forall2 evolves s (stamped now roll_id s).
Proof.
  induction s as [|x s IH]; intros H; simpl; constructor.
  - destruct (Z.eqb_spec (Roll.id x) roll_id) as [E|_];
      [|apply evolves_refl].
    unfold evolves. simpl. repeat split; try reflexivity.
    intros d Hd. rewrite (H x (or_introl eq_refl) E) in Hd. discriminate.
  - apply IH. intros r Hr. apply H. now right.
Qed.

Lemma stamped_invariant (now : datetime) (roll_id : Z) (s : Store) :
  (forall r, In r s -> Roll.id r = roll_id -> Roll.date_removed r = None) ->
  store_invariant s -> clock_not_before s now ->
  store_invariant (stamped now roll_id s).
Proof.
  unfold store_invariant, stamped. intros Hact Hinv Hclock.
  apply Forall_forall. intros r' Hr'. apply in_map_iff in Hr'.
  destruct Hr' as (r & <- & Hr).
  destruct (Roll.id r =? roll_id).
  - intros da dr Ha [= <-]. simpl in Ha. now apply (Hclock r).
  - rewrite Forall_forall in Hinv. now apply Hinv.
Qed.

Lemma primary_key_unique (s : Store) (r x : Roll.t) :
  primary_key s ->
  find (fun y => Roll.id y =? Roll.id x) s = Some r -> In x s -> x = r.
Proof.
  intros [Hnd _] Hfind Hin.
  rewrite (find_present (Roll.id x) s x Hnd Hin eq_refl) in Hfind.
  congruence.
Qed.

Lemma append_primary_key (s : Store) (r : Roll.t) :
  primary_key s -> Roll.id r = next_id s -> in_int64 (next_id s) = true ->
  primary_key (s ++ [r]).
Proof.
  intros [Hnd Hr] Hid Hk. split.
  - rewrite map_app. simpl.
    apply NoDup_app; [exact Hnd | repeat constructor; intros [] |].
    intros k Hin [<-|[]]. apply in_map_iff in Hin.
    destruct Hin as (x & Hx & Hxs).
    apply (next_id_fresh s x Hxs). congruence.
  - apply Forall_app. split; [exact Hr|].
    constructor; [now rewrite Hid | constructor].
Qed.

(** An endpoint leaves the table as it was, or appends the created roll, or
    stamps an active roll. *)
Lemma after_cases (now : datetime) (o : operation) (s : Store) :
  after now o s = s
  \/ (exists roll,
        o = Create roll
        /\ in_int64 (next_id s) = true
        /\ after now o s
           = s ++ [Roll.mk (next_id s) (RollCreate.length roll)
                           (RollCreate.weight roll) (Some now) None])
  \/ (exists roll_id r,
        o = Delete roll_id
        /\ find (fun x => Roll.id x =? roll_id) s = Some r
        /\ Roll.date_removed r = None
        /\ after now o s = stamped now roll_id s).
Proof.
  destruct o as [roll|roll_id|roll_id| |lo hi]; unfold after.
  - unfold App.create_roll. rewrite handler_store.
    destruct (create_roll_cases now roll s) as [(_ & Hk & E)|[e E]];
      rewrite E; [|now left].
    right. left. exists roll. now repeat split.
  - rewrite delete_endpoint_store.
    destruct (delete_roll_store now roll_id s) as [E|(r & _ & Hf & Hd & E)];
      [now left|].
    right. right. exists roll_id, r. rewrite E. now repeat split.
  - left. unfold App.get_roll. rewrite handler_store. apply get_roll_store.
  - left. reflexivity.
  - left. unfold App.get_roll_stats. rewrite handler_store.
    apply get_stats_store.
Qed.

(** C7, as the code has it.  When requests are served one at a time, an
    operation on a table keyed by [id] leaves a table keyed by [id] in which
    every earlier row is still present at its place with its id, length,
    weight and [date_added] unchanged and with its [date_removed], if it was
    set, unchanged; that holds whatever the clock reads.  If moreover the
    rows satisfy the invariant and the clock reads no earlier than any
    recorded [date_added], the rows of the table left satisfy the invariant,
    and the clock condition goes on holding at every later reading. *)
Theorem operations_preserve_invariant
        (s : Store) (now : datetime) (o : operation) :
  primary_key s ->
  let s' := after now o s in
  primary_key s'
  /\ Forall2 evolves s (firstn (List.length s) s')
  /\ (store_invariant s -> clock_not_before s now ->
      store_invariant s'
      /\ forall now', now <= now' -> clock_not_before s' now').
Proof.
  intros Hpk s'. subst s'.
  destruct (after_cases now o s)
    as [E|[(roll & _ & Hk & E)|(roll_id & r & _ & Hf & Hd & E)]]; rewrite E.
  - rewrite firstn_all.
    split; [exact Hpk|]. split; [apply Forall2_evolves_refl|].
    intros Hinv Hclock. split; [exact Hinv|].
    intros now' Hle x da Hx Ha. pose proof (Hclock x da Hx Ha). lia.
  - split; [now apply append_primary_key|]. split.
    + rewrite firstn_app, firstn_all, Nat.sub_diag. simpl.
      rewrite app_nil_r. apply Forall2_evolves_refl.
    + intros Hinv Hclock. split.
      * apply Forall_app. split; [exact Hinv|].
        constructor; [|constructor]. intros da dr _ H. discriminate.
      * intros now' Hle x da Hx Ha. apply in_app_or in Hx.
        destruct Hx as [Hx|[<-|[]]].
        -- pose proof (Hclock x da Hx Ha). lia.
        -- simpl in Ha. injection Ha as <-. exact Hle.
  - assert (Hact : forall x, In x s -> Roll.id x = roll_id ->
                             Roll.date_removed x = None).
    { intros x Hx Hid. subst roll_id.
      now rewrite (primary_key_unique s r x Hpk Hf Hx). }
    split; [now apply stamped_primary_key|]. split.
    + replace (List.length s) with (List.length (stamped now roll_id s))
        by (unfold stamped; apply length_map).
      rewrite firstn_all. now apply stamped_evolves.
    + intros Hinv Hclock. split; [now apply stamped_invariant|].
      intros now' Hle x da Hx Ha. unfold stamped in Hx.
      apply in_map_iff in Hx. destruct Hx as (y & <- & Hy).
      assert (Ha' : Roll.date_added y = Some da)
        by (destruct (Roll.id y =? roll_id); exact Ha).
      pose proof (Hclock y da Hy Ha'). lia.
Qed.

(** ** C9: two deletes of one id *)

Section TwoDeletes.
Import Concurrent.
Variables (roll_id : Z) (r : Roll.t).
Hypothesis in_range : in_int64 roll_id = true.

Lemma advance_select_active (now : datetime) (s : Store) :
  find (fun x => Roll.id x =? roll_id) s = Some r ->
  Roll.date_removed r = None ->
  advance now roll_id Calling s = (Holding r, s).
Proof.
  intros Hf Hd. unfold advance, CRUDRoll.delete_select, bind.
  now rewrite (query_first_by_id_in roll_id s in_range), Hf, Hd.
Qed.

Lemma advance_select_removed (now : datetime) (s : Store) (d : datetime) :
  find (fun x => Roll.id x =? roll_id) s = Some r ->
  Roll.date_removed r = Some d ->
  advance now roll_id Calling s = (Returned (inl AlreadyRemoved), s).
Proof.
  intros Hf Hd. unfold advance, CRUDRoll.delete_select, bind.
  now rewrite (query_first_by_id_in roll_id s in_range), Hf, Hd.
Qed.

Lemma advance_stamp (now : datetime) (s : Store) :
  advance now roll_id (Holding r) s
  = (Returned (inr Expired), stamped now (Roll.id r) s).
Proof. reflexivity. Qed.
End TwoDeletes.

(** A call that runs alone is [delete_roll]. *)
Lemma advance_twice_is_delete_roll (now : datetime) (roll_id : Z) (s : Store) :
  let (c1, s1) := Concurrent.advance now roll_id Concurrent.Calling s in
  Concurrent.advance now roll_id c1 s1
  = (Concurrent.Returned (fst (CRUDRoll.delete_roll now roll_id s)),
     snd (CRUDRoll.delete_roll now roll_id s)).
Proof.
  unfold Concurrent.advance, CRUDRoll.delete_roll, bind.
  destruct (CRUDRoll.delete_select roll_id s) as [[e|db_roll] s'];
    [reflexivity|].
  now destruct (CRUDRoll.delete_stamp now db_roll s').
Qed.

(** C9, as the code has it.  Two calls of [delete_roll] on the id of an
    active roll of a table keyed by [id], each making its SELECT and then its
    commit, in any of the six orders: when one call ends before the other
    begins, the earlier call succeeds and the later fails with
    [AlreadyRemoved]; in each of the four orders in which both SELECTs come
    before both commits are done, both calls succeed. *)
Theorem two_deletes_by_schedule
        (s : Store) (now1 now2 : datetime) (roll_id : Z) (r : Roll.t)
        (sched : list Concurrent.turn) :
  primary_key s ->
  find (fun x => Roll.id x =? roll_id) s = Some r ->
  Roll.date_removed r = None ->
  In sched Concurrent.interleavings ->
  let c := Concurrent.run now1 now2 roll_id sched s in
  let failed := Concurrent.Returned (inl AlreadyRemoved) in
  if Concurrent.serial sched
  then (Concurrent.succeeded (Concurrent.call1 c) = true
        /\ Concurrent.call2 c = failed
        /\ hd Concurrent.First sched = Concurrent.First)
       \/ (Concurrent.call1 c = failed
           /\ Concurrent.succeeded (Concurrent.call2 c) = true
           /\ hd Concurrent.First sched = Concurrent.Second)
  else Concurrent.succeeded (Concurrent.call1 c) = true
       /\ Concurrent.succeeded (Concurrent.call2 c) = true.
Proof.
  intros Hpk Hf Hd Hin c failed.
  pose proof (find_has_id roll_id s r Hf) as [Hrs Hid].
  assert (Hr : in_int64 roll_id = true)
    by (rewrite <- Hid; now apply (primary_key_in_range s)).
  pose proof (find_stamped roll_id now1 s r Hf) as Hf1.
  pose proof (find_stamped roll_id now2 s r Hf) as Hf2.
  assert (Hsel := fun now => advance_select_active roll_id r Hr now s Hf Hd).
  assert (Hsel1 := fun now =>
            advance_select_removed roll_id _ Hr now _ now1 Hf1 eq_refl).
  assert (Hsel2 := fun now =>
            advance_select_removed roll_id _ Hr now _ now2 Hf2 eq_refl).
  assert (Hst := fun now t => advance_stamp roll_id r now t).
  rewrite Hid in Hst.
  subst c. unfold Concurrent.run, Concurrent.start.
  simpl in Hin.
  destruct Hin as [<-|[<-|[<-|[<-|[<-|[<-|[]]]]]]];
    cbn [fold_left Concurrent.serial hd Concurrent.step
         Concurrent.call1 Concurrent.call2 Concurrent.table];
    repeat (first [ rewrite Hsel | rewrite Hst | rewrite Hsel1 | rewrite Hsel2 ];
            cbn [Concurrent.call1 Concurrent.call2 Concurrent.table]);
    auto.
Qed.

(** ** The statements at concrete tables *)

Lemma one_roll_primary_key : primary_key one_roll.
Proof. split; repeat constructor. intros []. Qed.

Lemma removed_roll_primary_key : primary_key removed_roll.
Proof. split; repeat constructor. intros []. Qed.

Lemma one_roll_invariant : store_invariant one_roll.
Proof. repeat constructor. intros da dr _ H. discriminate. Qed.

Lemma one_roll_clock : clock_not_before one_roll 200.
Proof. intros r da [<-|[]] [= <-]. lia. Qed.

(** Deleting roll 1 at time 200 succeeds and stamps it; deleting it again
    fails with [AlreadyRemoved]. *)
Lemma delete_roll_outcomes_witness :
  primary_key one_roll
  /\ (exists i, CRUDRoll.delete_roll 200 1 one_roll = (inr i, removed_roll))
  /\ CRUDRoll.delete_roll 300 1 removed_roll = (inl AlreadyRemoved, removed_roll).
Proof.
  split; [exact one_roll_primary_key|].
  destruct (delete_roll_outcomes one_roll 200 1 one_roll_primary_key)
    as (_ & _ & _ & H).
  destruct (H (Roll.mk 1 (10 # 1) (20 # 1) (Some 100) None))
    as (H1 & _ & _ & _ & H2); [now left | reflexivity | reflexivity |].
  split; [exact H1 | exact (H2 300)].
Defined.

(** No roll has the id 2^63, and deleting it raises [OverflowError], not
    [NotFound].  Deleting the active roll 1 returns an instance of which no
    attribute can be read. *)
Lemma delete_roll_overflows_or_expires :
  (forall r, In r one_roll -> Roll.id r <> 9223372036854775808)
  /\ CRUDRoll.delete_roll 300 9223372036854775808 one_roll
     = (inl OutOfRange, one_roll)
  /\ OutOfRange <> NotFound
  /\ (forall r, fst (CRUDRoll.delete_roll 200 1 one_roll) <> inr (Loaded r))
  /\ (exists i, fst (CRUDRoll.delete_roll 200 1 one_roll) = inr i
                /\ attributes i = inl DetachedInstanceError).
Proof.
  split; [intros r [<-|[]]; discriminate|].
  split; [reflexivity|]. split; [discriminate|].
  split; [discriminate|]. now exists Expired.
Qed.

(** A window from 2 back to 1 over a table of one roll: [get_stats] returns
    a [RollStats] and raises nothing. *)
Lemma get_stats_inverted_window_returns :
  2 > 1
  /\ (exists st, fst (CRUDRoll.get_stats 2 1 one_roll) = inr st)
  /\ forall e, fst (CRUDRoll.get_stats 2 1 one_roll) <> inl e.
Proof.
  split; [lia|]. split; [now exists zero_stats | discriminate].
Qed.

Lemma get_stats_inverted_window_witness :
  2 > 1 /\ CRUDRoll.get_stats 2 1 one_roll = (inr zero_stats, one_roll).
Proof.
  split; [lia|]. apply (get_stats_inverted_window one_roll 2 1). lia.
Defined.

(** Three rolls of length 0.1: the average that [get_stats] reports is not
    the arithmetic mean of the three lengths, and is above the maximum.
    Three rolls of weights 10^16, 1 and -10^16: the total weight reported is
    0, and the sum of the three weights is 1. *)
Lemma get_stats_average_is_rounded :
  (exists st,
      CRUDRoll.get_stats 0 5000 tenth_rolls = (inr st, tenth_rolls)
      /\ ~ (value (RollStats.avg_length st)
            == mean (map value (map Roll.length tenth_rolls)))%Q
      /\ flt (RollStats.max_length st) (RollStats.avg_length st) = true)
  /\ (exists st,
         CRUDRoll.get_stats 0 5000 absorbed_rolls = (inr st, absorbed_rolls)
         /\ RollStats.total_weight st = zero
         /\ (Qsum (map value (map Roll.weight absorbed_rolls)) == 1)%Q).
Proof.
  split; eexists; (split; [reflexivity|]).
  - split; [|reflexivity]. vm_compute. discriminate.
  - split; reflexivity.
Qed.

(** A roll removed 1111381949381 microseconds after it was added: the gap
    reported is neither that time in hours nor the double nearest to it. *)
Lemma get_stats_gap_is_rounded_twice :
  exists st q,
    CRUDRoll.get_stats 0 2000000000000 slow_roll = (inr st, slow_roll)
    /\ exact_gap_hours (Roll.mk 1 (10 # 1) (20 # 1) (Some 0)
                                (Some 1111381949381)) = Some q
    /\ ~ (value (RollStats.min_gap st) == q)%Q
    /\ RollStats.min_gap st <> float_of_Q q
    /\ ~ (value (RollStats.max_gap st) == q)%Q
    /\ RollStats.max_gap st <> float_of_Q q.
Proof.
  eexists. eexists. split; [reflexivity|]. split; [reflexivity|].
  repeat split; vm_compute; discriminate.
Qed.

(** Roll 1 was added at time 100; a delete that reads the clock as 50 stamps
    a removal dated before the addition.  And of two deletes of roll 1 in
    flight, the second commit changes the [date_removed] that the first
    commit had set. *)
Lemma delete_with_earlier_clock_breaks_invariant :
  (primary_key one_roll
   /\ store_invariant one_roll
   /\ ~ store_invariant (after 50 (Delete 1) one_roll))
  /\ (let mid := Concurrent.table
                   (Concurrent.run 200 300 1
                      [Concurrent.First; Concurrent.Second; Concurrent.First]
                      one_roll) in
      let fin := Concurrent.table
                   (Concurrent.run 200 300 1
                      [Concurrent.First; Concurrent.Second; Concurrent.First;
                       Concurrent.Second] one_roll) in
      map Roll.date_removed mid = [Some 200]
      /\ map Roll.date_removed fin = [Some 300]
      /\ ~ Forall2 evolves mid fin).
Proof.
  split.
  - split; [exact one_roll_primary_key|]. split; [exact one_roll_invariant|].
    intros H. inversion H as [|x l Hx _]; subst.
    specialize (Hx 100 50 eq_refl eq_refl). lia.
  - split; [reflexivity|]. split; [reflexivity|].
    intros H. inversion H as [|x y l l' Hxy _]; subst.
    destruct Hxy as (_ & _ & _ & _ & Hd).
    specialize (Hd 200 eq_refl). discriminate.
Qed.

Lemma operations_preserve_invariant_witness :
  primary_key one_roll /\ store_invariant one_roll
  /\ clock_not_before one_roll 200
  /\ store_invariant (after 200 (Delete 1) one_roll)
  /\ after 200 (Delete 1) one_roll = removed_roll.
Proof.
  split; [exact one_roll_primary_key|]. split; [exact one_roll_invariant|].
  split; [exact one_roll_clock|]. split; [|reflexivity].
  apply (operations_preserve_invariant one_roll 200 (Delete 1)
           one_roll_primary_key);
    [exact one_roll_invariant | exact one_roll_clock].
Defined.

(** A create whose length is NaN raises, returns no record and inserts
    nothing. *)
Lemma create_roll_refuses_nan :
  CRUDRoll.create_roll 100 (RollCreate.mk S754_nan (20 # 1)) one_roll
  = (inl NullRefused, one_roll)
  /\ forall r, fst (CRUDRoll.create_roll 100 (RollCreate.mk S754_nan (20 # 1))
                                         one_roll) <> inr r.
Proof. split; [reflexivity | discriminate]. Qed.

Lemma create_roll_inserts_witness :
  exists r,
    CRUDRoll.create_roll 100 (RollCreate.mk (10 # 1) (20 # 1)) []
    = (inr r, [r])
    /\ Roll.id r = 1 /\ Roll.date_added r = Some 100.
Proof.
  destruct (create_roll_inserts [] 100 (RollCreate.mk (10 # 1) (20 # 1)))
    as [H _].
  destruct (H eq_refl eq_refl) as (r & E & _ & _ & Ha & _ & Hid & _).
  exists r. split; [exact E|]. split; [exact Hid | exact Ha].
Defined.

(** Two deletes of roll 1 whose SELECTs both precede the commits: both
    succeed. *)
Lemma interleaved_deletes_both_succeed :
  let c := Concurrent.run 200 300 1
             [Concurrent.First; Concurrent.Second;
              Concurrent.First; Concurrent.Second] one_roll in
  Concurrent.succeeded (Concurrent.call1 c) = true
  /\ Concurrent.succeeded (Concurrent.call2 c) = true
  /\ Concurrent.call1 c <> Concurrent.Returned (inl AlreadyRemoved)
  /\ Concurrent.call2 c <> Concurrent.Returned (inl AlreadyRemoved)
  /\ Concurrent.call1 c <> Concurrent.Returned (inl NotFound)
  /\ Concurrent.call2 c <> Concurrent.Returned (inl NotFound).
Proof. repeat split; discriminate. Qed.

Lemma two_deletes_by_schedule_witness :
  let c := Concurrent.run 200 300 1
             [Concurrent.First; Concurrent.First;
              Concurrent.Second; Concurrent.Second] one_roll in
  (Concurrent.succeeded (Concurrent.call1 c) = true
   /\ Concurrent.call2 c = Concurrent.Returned (inl AlreadyRemoved)
   /\ Concurrent.First = Concurrent.First)
  \/ (Concurrent.call1 c = Concurrent.Returned (inl AlreadyRemoved)
      /\ Concurrent.succeeded (Concurrent.call2 c) = true
      /\ Concurrent.First = Concurrent.Second).
Proof.
  apply (two_deletes_by_schedule
           one_roll 200 300 1 (Roll.mk 1 (10 # 1) (20 # 1) (Some 100) None)
           [Concurrent.First; Concurrent.First;
            Concurrent.Second; Concurrent.Second] one_roll_primary_key).
  - reflexivity.
  - reflexivity.
  - now left.
Defined.

(** The fixed data set of the test plan. *)
Example get_stats_three_rolls :
  exists st,
    CRUDRoll.get_stats 0 8000000000 three_rolls = (inr st, three_rolls)
    /\ RollStats.added_count st = 3 /\ RollStats.removed_count st = 1
    /\ RollStats.avg_length st = (10 # 1)%Q
    /\ RollStats.min_length st = (5 # 1)%Q
    /\ RollStats.max_length st = (15 # 1)%Q
    /\ RollStats.total_weight st = (60 # 1)%Q
    /\ RollStats.min_gap st = (2 # 1)%Q
    /\ RollStats.max_gap st = (2 # 1)%Q.
Proof. eexists. split; [reflexivity|]. repeat split. Qed.

Example get_rolls_length_min_15 :
  fst (CRUDRoll.get_rolls (Some (float_of_Q (15 # 1))) None None None
                          None None None None three_rolls)
  = inr [Roll.mk 3 (15 # 1) (30 # 1) (Some 3000) None].
Proof. reflexivity. Qed.

(** * Further properties of the repository and the endpoints *)

(** ** Lookup, and how create and delete compose with it *)

Lemma find_app_fresh (roll_id : Z) (s : Store) (r : Roll.t) :
  (forall x, In x s -> Roll.id x <> roll_id) ->
  Roll.id r = roll_id ->
  find (fun x => Roll.id x =? roll_id) (s ++ [r]) = Some r.
Proof.
  intros Hfresh Hid. induction s as [|y s IH]; simpl.
  - now rewrite Hid, Z.eqb_refl.
  - destruct (Z.eqb_spec (Roll.id y) roll_id) as [E|_].
    + exfalso. apply (Hfresh y); [now left | exact E].
    + apply IH. intros x Hx. apply Hfresh. now right.
Qed.

Lemma find_stamped_other (now : datetime) (roll_id k : Z) (s : Store) :
  k <> roll_id ->
  find (fun x => Roll.id x =? k) (stamped now roll_id s)
  = find (fun x => Roll.id x =? k) s.
Proof.
  intros Hk. induction s as [|y s IH]; simpl; [reflexivity|].
  destruct (Z.eqb_spec (Roll.id y) roll_id) as [E|N]; simpl.
  - destruct (Z.eqb_spec (Roll.id y) k) as [E'|_]; [congruence | exact IH].
  - now rewrite IH.
Qed.

Lemma get_roll_of_find (roll_id : Z) (s : Store) :
  CRUDRoll.get_roll roll_id s
  = if in_int64 roll_id
    then match find (fun x => Roll.id x =? roll_id) s with
         | Some r => (inr r, s)
         | None => (inl NotFound, s)
         end
    else (inl OutOfRange, s).
Proof.
  unfold CRUDRoll.get_roll, bind, query_first_by_id, bind_integer, bind.
  destruct (in_int64 roll_id); simpl; [|reflexivity].
  now destruct (find _ s).
Qed.

(** In a table keyed by [id], [get_roll] returns the row that has the id,
    removed or not; raises the 404 condition when the id is a 64-bit integer
    that no row has; and raises [OverflowError] for any other id. *)
Theorem get_roll_lookup (s : Store) (roll_id : Z) :
  primary_key s ->
  (in_int64 roll_id = false ->
   CRUDRoll.get_roll roll_id s = (inl OutOfRange, s))
  /\ (in_int64 roll_id = true ->
      (forall r, In r s -> Roll.id r <> roll_id) ->
      CRUDRoll.get_roll roll_id s = (inl NotFound, s))
  /\ (forall r, In r s -> Roll.id r = roll_id ->
      CRUDRoll.get_roll roll_id s = (inr r, s)).
Proof.
  intros Hpk. rewrite get_roll_of_find. split; [|split].
  - now intros ->.
  - intros -> H. now rewrite (find_absent roll_id s H).
  - intros r Hr Hid.
    assert (Hk : in_int64 roll_id = true)
      by (rewrite <- Hid; now apply (primary_key_in_range s)).
    now rewrite Hk, (find_present roll_id s r (proj1 Hpk) Hr Hid).
Qed.

Lemma get_roll_lookup_witness :
  primary_key removed_roll
  /\ CRUDRoll.get_roll 1 removed_roll
     = (inr (Roll.mk 1 (10 # 1) (20 # 1) (Some 100) (Some 200)), removed_roll).
Proof.
  split; [exact removed_roll_primary_key|].
  apply (get_roll_lookup removed_roll 1 removed_roll_primary_key);
    [now left | reflexivity].
Defined.

(** When [create_roll] succeeds, a roll fetched by the id it returned is the
    roll it returned, whatever the table held before. *)
Theorem create_then_get_roll (s : Store) (now : datetime) (roll : RollCreate.t) :
  RollCreate.storable roll = true -> in_int64 (next_id s) = true ->
  exists r s',
    CRUDRoll.create_roll now roll s = (inr r, s')
    /\ CRUDRoll.get_roll (Roll.id r) s' = (inr r, s').
Proof.
  intros Hs Hk. unfold CRUDRoll.create_roll, add_commit_refresh.
  rewrite Hs, Hk. eexists. eexists. split; [reflexivity|].
  rewrite get_roll_of_find. cbn [Roll.id]. rewrite Hk.
  rewrite find_app_fresh; [reflexivity | apply next_id_fresh | reflexivity].
Qed.

Lemma create_then_get_roll_witness :
  exists r s',
    CRUDRoll.create_roll 500 (RollCreate.mk (10 # 1) (20 # 1)) one_roll
    = (inr r, s')
    /\ CRUDRoll.get_roll (Roll.id r) s' = (inr r, s').
Proof.
  apply (create_then_get_roll one_roll 500 (RollCreate.mk (10 # 1) (20 # 1)));
    reflexivity.
Defined.

(** A roll just created is active: a delete of the id that [create_roll]
    returned succeeds and stamps the roll with the clock reading of the
    delete; the roll can still be fetched afterwards, stamped; and a further
    delete of the id raises the 400 condition. *)
Theorem create_then_delete_roll
        (s : Store) (now now' now'' : datetime) (roll : RollCreate.t) :
  RollCreate.storable roll = true -> in_int64 (next_id s) = true ->
  exists r s' i s'',
    CRUDRoll.create_roll now roll s = (inr r, s')
    /\ CRUDRoll.delete_roll now' (Roll.id r) s' = (inr i, s'')
    /\ CRUDRoll.get_roll (Roll.id r) s''
       = (inr (Roll.set_date_removed r (Some now')), s'')
    /\ CRUDRoll.delete_roll now'' (Roll.id r) s''
       = (inl AlreadyRemoved, s'').
Proof.
  intros Hs Hk.
  set (r := Roll.mk (next_id s) (RollCreate.length roll)
                    (RollCreate.weight roll) (Some now) None).
  set (s' := s ++ [r]).
  exists r, s', Expired, (stamped now' (Roll.id r) s').
  split.
  { unfold CRUDRoll.create_roll, add_commit_refresh. now rewrite Hs, Hk. }
  assert (Hf : find (fun x => Roll.id x =? Roll.id r) s' = Some r)
    by (apply find_app_fresh; [apply next_id_fresh | reflexivity]).
  assert (Hr : in_int64 (Roll.id r) = true) by exact Hk.
  pose proof (find_stamped (Roll.id r) now' s' r Hf) as Hf'.
  split; [now apply delete_roll_active with (r := r)|].
  split.
  - now rewrite get_roll_of_find, Hr, Hf'.
  - now apply delete_roll_removed
      with (r := Roll.set_date_removed r (Some now')) (d := now').
Qed.

Lemma create_then_delete_roll_witness :
  exists r s' i s'',
    CRUDRoll.create_roll 100 (RollCreate.mk (10 # 1) (20 # 1)) [] = (inr r, s')
    /\ CRUDRoll.delete_roll 200 (Roll.id r) s' = (inr i, s'')
    /\ CRUDRoll.get_roll (Roll.id r) s''
       = (inr (Roll.set_date_removed r (Some 200)), s'')
    /\ CRUDRoll.delete_roll 300 (Roll.id r) s'' = (inl AlreadyRemoved, s'').
Proof.
  apply (create_then_delete_roll [] 100 200 300
           (RollCreate.mk (10 # 1) (20 # 1))); reflexivity.
Defined.

(** In a table keyed by [id], after a successful delete, [get_roll] of the
    id returns the stamped roll; [get_roll] of any other id returns what it
    returned before the delete. *)
Theorem delete_then_get_roll
        (s : Store) (now : datetime) (roll_id : Z) (r : Roll.t) :
  primary_key s ->
  find (fun x => Roll.id x =? roll_id) s = Some r ->
  Roll.date_removed r = None ->
  let s' := snd (CRUDRoll.delete_roll now roll_id s) in
  CRUDRoll.get_roll roll_id s' = (inr (Roll.set_date_removed r (Some now)), s')
  /\ forall k, k <> roll_id ->
               fst (CRUDRoll.get_roll k s') = fst (CRUDRoll.get_roll k s).
Proof.
  intros Hpk Hf Hd s'. subst s'.
  pose proof (find_has_id roll_id s r Hf) as [Hrs Hid].
  assert (Hr : in_int64 roll_id = true)
    by (rewrite <- Hid; now apply (primary_key_in_range s)).
  rewrite (delete_roll_active now roll_id s r Hr Hf Hd). simpl. split.
  - now rewrite get_roll_of_find, Hr, (find_stamped roll_id now s r Hf).
  - intros k Hk. rewrite !get_roll_of_find, find_stamped_other by exact Hk.
    destruct (in_int64 k); [|reflexivity].
    destruct (find (fun x => Roll.id x =? k) s); reflexivity.
Qed.

Lemma three_rolls_primary_key : primary_key three_rolls.
Proof.
  split; [simpl; repeat constructor; simpl; intuition lia|].
  repeat constructor.
Qed.

Lemma delete_then_get_roll_witness :
  CRUDRoll.get_roll 2 (snd (CRUDRoll.delete_roll 7200002000 2 three_rolls))
  = (inr (Roll.mk 2 (10 # 1) (20 # 1) (Some 2000) (Some 7200002000)),
     snd (CRUDRoll.delete_roll 7200002000 2 three_rolls))
  /\ fst (CRUDRoll.get_roll 3
            (snd (CRUDRoll.delete_roll 7200002000 2 three_rolls)))
     = fst (CRUDRoll.get_roll 3 three_rolls).
Proof.
  destruct (delete_then_get_roll
              three_rolls 7200002000 2
              (Roll.mk 2 (10 # 1) (20 # 1) (Some 2000) None)
              three_rolls_primary_key eq_refl eq_refl) as [H1 H2].
  split; [exact H1 | apply H2; discriminate].
Defined.

(** ** What a delete leaves alone *)

(** [delete_roll] is a soft delete: it removes no row and adds none, and
    leaves the id, length, weight and [date_added] of every row, in table
    order, as they were; a row with another id is left as it was at its
    place in the table. *)
Theorem delete_roll_keeps_rows (s : Store) (now : datetime) (roll_id : Z) :
  let s' := snd (CRUDRoll.delete_roll now roll_id s) in
  map Roll.id s' = map Roll.id s
  /\ map Roll.length s' = map Roll.length s
  /\ map Roll.weight s' = map Roll.weight s
  /\ map Roll.date_added s' = map Roll.date_added s
  /\ forall n r, nth_error s n = Some r -> Roll.id r <> roll_id ->
                 nth_error s' n = Some r.
Proof.
  intros s'. subst s'.
  destruct (delete_roll_store now roll_id s) as [E|(r & _ & _ & _ & E)];
    rewrite E; [now repeat split|].
  unfold stamped. simpl.
  repeat split; try (rewrite map_map; apply map_ext; intros x;
                     now destruct (Roll.id x =? roll_id)).
  intros n x Hn Hid. rewrite nth_error_map, Hn. simpl.
  now destruct (Z.eqb_spec (Roll.id x) roll_id).
Qed.

(** A delete that raises has written nothing, and what it raises is the
    404 condition, the 400 condition or the [OverflowError] of an id outside
    the range of the key. *)
Theorem delete_roll_failure_writes_nothing
        (s : Store) (now : datetime) (roll_id : Z) (e : exn) :
  fst (CRUDRoll.delete_roll now roll_id s) = inl e ->
  snd (CRUDRoll.delete_roll now roll_id s) = s
  /\ (e = NotFound \/ e = AlreadyRemoved \/ e = OutOfRange)
  /\ (e = OutOfRange <-> in_int64 roll_id = false).
Proof.
  destruct (in_int64 roll_id) eqn:Hr.
  - destruct (find (fun r => Roll.id r =? roll_id) s) as [r|] eqn:Hf.
    + destruct (Roll.date_removed r) as [d|] eqn:Hd.
      * rewrite (delete_roll_removed now roll_id s r d Hr Hf Hd). simpl.
        intros [= <-]. repeat split; auto; discriminate.
      * rewrite (delete_roll_active now roll_id s r Hr Hf Hd). discriminate.
    + rewrite (delete_roll_absent now roll_id s Hr Hf). simpl.
      intros [= <-]. repeat split; auto; discriminate.
  - rewrite (delete_roll_out_of_range now roll_id s Hr). simpl.
    intros [= <-]. repeat split; auto.
Qed.

Lemma delete_roll_failure_writes_nothing_witness :
  snd (CRUDRoll.delete_roll 300 1 removed_roll) = removed_roll
  /\ (AlreadyRemoved = NotFound \/ AlreadyRemoved = AlreadyRemoved
      \/ AlreadyRemoved = OutOfRange)
  /\ (AlreadyRemoved = OutOfRange <-> in_int64 1 = false).
Proof.
  apply (delete_roll_failure_writes_nothing removed_roll 300 1 AlreadyRemoved).
  reflexivity.
Defined.

(** ** Status codes, endpoint by endpoint *)

(** The [min] and [max] of [get_stats] are never applied to an empty
    sequence: for every table and every pair of bounds, in either order, the
    statistics endpoint answers 200 with what the repository computed and
    leaves the table as it was. *)
Theorem get_roll_stats_answers_200
        (s : Store) (start_date end_date : datetime) :
  App.response_status (App.get_roll_stats start_date end_date) s = 200
  /\ App.get_roll_stats start_date end_date s
     = CRUDRoll.get_stats start_date end_date s
  /\ snd (App.get_roll_stats start_date end_date s) = s.
Proof.
  unfold App.response_status, App.get_roll_stats, App.try_except_Exception.
  pose proof (get_stats_eval s start_date end_date) as H. simpl in H.
  rewrite H. now repeat split.
Qed.

(** The delete endpoint answers 500 to every request: to an id out of range,
    absent or already removed because the handler turns what the repository
    raises into 500, and to the id of an active roll because the roll is
    stamped in the table and the instance returned can then not be read for
    the response.  The lookup endpoint answers 200 exactly when the id is a
    64-bit integer that some row has, and 500 otherwise. *)
Theorem delete_and_get_endpoint_status
        (s : Store) (now : datetime) (roll_id : Z) :
  let found := find (fun r => Roll.id r =? roll_id) s in
  App.response_status (App.delete_roll now roll_id) s = 500
  /\ (forall r, in_int64 roll_id = true -> found = Some r ->
                Roll.date_removed r = None ->
                snd (App.delete_roll now roll_id s) = stamped now roll_id s)
  /\ App.response_status (App.get_roll roll_id) s
     = if in_int64 roll_id
       then match found with Some _ => 200 | None => 500 end
       else 500.
Proof.
  intros found. subst found.
  split; [apply delete_endpoint_answers_500|]. split.
  - intros r Hr Hf Hd. rewrite delete_endpoint_store.
    now rewrite (delete_roll_active now roll_id s r Hr Hf Hd).
  - unfold App.get_roll.
    rewrite handler_answers_200_or_500, get_roll_of_find.
    destruct (in_int64 roll_id); [|reflexivity].
    now destruct (find (fun r => Roll.id r =? roll_id) s).
Qed.

(** ** How the fields of the statistics relate *)

(** In the statistics of any window, the minimum of a column is not above
    its maximum, and the least gap is not above the greatest; that holds
    also of the zeros reported for an empty window. *)
Theorem get_stats_ordered (s : Store) (start_date end_date : datetime) :
  exists st,
    CRUDRoll.get_stats start_date end_date s = (inr st, s)
    /\ flt (RollStats.max_length st) (RollStats.min_length st) = false
    /\ flt (RollStats.max_weight st) (RollStats.min_weight st) = false
    /\ flt (RollStats.max_gap st) (RollStats.min_gap st) = false.
Proof.
  eexists. split; [apply get_stats_eval|]. simpl.
  set (A := addedSet start_date end_date s).
  set (G := CRUDRoll.gaps_of (removedSet start_date end_date s)).
  assert (H : forall l : list float,
             flt (match l with [] => zero | _ :: _ => value_of (py_max l) end)
                 (match l with [] => zero | _ :: _ => value_of (py_min l) end)
             = false).
  { intros l. destruct l as [|x t] eqn:El; [reflexivity|]. rewrite <- El.
    assert (Hl : l <> []) by (rewrite El; congruence).
    destruct (py_min_nonempty l Hl) as [_ [_ Hmin]].
    destruct (py_max_nonempty l Hl) as [_ [Hin _]].
    now apply Hmin. }
  split; [|split].
  - specialize (H (map Roll.length A)). now destruct A.
  - specialize (H (map Roll.weight A)). now destruct A.
  - apply H.
Qed.

Lemma binary_round_aux_not_negative (m e : Z) (l : location) :
  flt (binary_round_aux prec emax false m e l) zero = false.
Proof.
  unfold binary_round_aux.
  destruct (shr_fexp prec emax m e l) as [mrs' e'].
  destruct (shr_fexp prec emax _ e' loc_Exact) as [mrs'' e''].
  destruct (shr_m mrs''); [reflexivity | | reflexivity].
  now destruct (Z.leb e'' (Z.sub emax prec)).
Qed.

Lemma int_true_div_not_negative (a : Z) (b : positive) :
  0 <= a -> flt (int_true_div a (Zpos b)) zero = false.
Proof.
  intros Ha. unfold int_true_div, SFdiv.
  destruct a as [|p|p]; simpl; [reflexivity | | lia].
  destruct (SFdiv_core_binary prec emax (Z.pos p) 0 (Z.pos b) 0)
    as [[mz ez] lz].
  apply binary_round_aux_not_negative.
Qed.

Lemma fdiv_not_negative (x : float) (m : positive) (e : Z) :
  flt x zero = false -> flt (fdiv x (S754_finite false m e)) zero = false.
Proof.
  unfold fdiv, SFdiv.
  destruct x as [sx|sx| |sx mx ex]; try destruct sx; simpl;
    try reflexivity; try discriminate.
  intros _.
  destruct (SFdiv_core_binary prec emax (Z.pos mx) ex (Z.pos m) e)
    as [[mz ez] lz].
  apply binary_round_aux_not_negative.
Qed.

Lemma gap_hours_not_negative (r : Roll.t) (g : float) :
  roll_invariant r -> gap_hours r = Some g -> flt g zero = false.
Proof.
  unfold roll_invariant, gap_hours. intros Hinv.
  destruct (Roll.date_added r) as [da|]; [|discriminate].
  destruct (Roll.date_removed r) as [dr|]; [|discriminate].
  intros [= <-]. pose proof (Hinv da dr eq_refl eq_refl).
  change (float_of_int 3600)
    with (S754_finite false 7916483719987200 (-41)).
  apply fdiv_not_negative. apply int_true_div_not_negative. lia.
Qed.

(** When no stored roll is removed before it was added, the gaps the
    statistics report are not negative. *)
Theorem get_stats_gaps_nonnegative
        (s : Store) (start_date end_date : datetime) :
  store_invariant s ->
  exists st,
    CRUDRoll.get_stats start_date end_date s = (inr st, s)
    /\ flt (RollStats.min_gap st) zero = false
    /\ flt (RollStats.max_gap st) zero = false.
Proof.
  intros Hinv. eexists. split; [apply get_stats_eval|]. simpl.
  set (R := removedSet start_date end_date s).
  assert (Hg : forall g, In g (CRUDRoll.gaps_of R) -> flt g zero = false).
  { intros g Hin. destruct (gaps_of_sound R g Hin) as (r & Hr & Hg).
    apply (gap_hours_not_negative r); [|exact Hg].
    apply in_removedSet in Hr. destruct Hr as [Hr _].
    unfold store_invariant in Hinv. rewrite Forall_forall in Hinv.
    now apply Hinv. }
  destruct (CRUDRoll.gaps_of R) as [|g0 G'] eqn:EG;
    [split; reflexivity|].
  rewrite <- EG in *.
  assert (HG : CRUDRoll.gaps_of R <> []) by (rewrite EG; congruence).
  split; apply Hg.
  - apply (py_min_nonempty _ HG).
  - apply (py_max_nonempty _ HG).
Qed.

Lemma get_stats_gaps_nonnegative_witness :
  store_invariant three_rolls
  /\ exists st,
      CRUDRoll.get_stats 0 8000000000 three_rolls = (inr st, three_rolls)
      /\ flt (RollStats.min_gap st) zero = false
      /\ flt (RollStats.max_gap st) zero = false.
Proof.
  assert (H : store_invariant three_rolls).
  { repeat constructor; intros da dr Ha Hd; simpl in Ha, Hd;
      try discriminate.
    injection Ha as <-. injection Hd as <-. lia. }
  split; [exact H|].
  exact (get_stats_gaps_nonnegative three_rolls 0 8000000000 H).
Defined.

(** ** The listing against the lookup and the statistics *)

(** In a table keyed by [id], every roll a listing returns is the roll
    that [get_roll] returns for its id. *)
Theorem listed_roll_is_fetched
        (s : Store)
        (length_min length_max weight_min weight_max : option float)
        (date_added_min date_added_max : option datetime)
        (date_removed_min date_removed_max : option datetime)
        (l : list Roll.t) (r : Roll.t) :
  primary_key s ->
  fst (CRUDRoll.get_rolls length_min length_max weight_min weight_max
                          date_added_min date_added_max
                          date_removed_min date_removed_max s) = inr l ->
  In r l ->
  CRUDRoll.get_roll (Roll.id r) s = (inr r, s).
Proof.
  intros Hpk [= <-] Hin. apply filter_In in Hin. destruct Hin as [Hin _].
  rewrite get_roll_of_find, (primary_key_in_range s r Hpk Hin).
  now rewrite (find_present (Roll.id r) s r (proj1 Hpk) Hin eq_refl).
Qed.

Lemma listed_roll_is_fetched_witness :
  CRUDRoll.get_roll 3 three_rolls
  = (inr (Roll.mk 3 (15 # 1) (30 # 1) (Some 3000) None), three_rolls).
Proof.
  apply (listed_roll_is_fetched
           three_rolls (Some (float_of_Q (15 # 1))) None None None
           None None None None
           [Roll.mk 3 (15 # 1) (30 # 1) (Some 3000) None]
           (Roll.mk 3 (15 # 1) (30 # 1) (Some 3000) None)
           three_rolls_primary_key eq_refl).
  now left.
Defined.

(** The two counts of the statistics are the sizes of two listings: the
    rolls listed with the window as bounds on [date_added], and the rolls
    listed with the window as bounds on [date_removed]. *)
Theorem get_stats_counts_are_listings
        (s : Store) (start_date end_date : datetime) :
  exists st added removed,
    CRUDRoll.get_stats start_date end_date s = (inr st, s)
    /\ CRUDRoll.get_rolls None None None None
                          (Some start_date) (Some end_date) None None s
       = (inr added, s)
    /\ CRUDRoll.get_rolls None None None None None None
                          (Some start_date) (Some end_date) s
       = (inr removed, s)
    /\ RollStats.added_count st = Z.of_nat (List.length added)
    /\ RollStats.removed_count st = Z.of_nat (List.length removed).
Proof.
  eexists. eexists. eexists. split; [apply get_stats_eval|].
  split; [reflexivity|]. split; [reflexivity|]. simpl.
  unfold addedSet, removedSet. split; do 2 f_equal; apply filter_ext;
    intros r; rewrite <- between_in_windowb; reflexivity.
Qed.

Lemma filter_length_le {A} (f g : A -> bool) (l : list A) :
  (forall a, f a = true -> g a = true) ->
  (List.length (filter f l) <= List.length (filter g l))%nat.
Proof.
  intros H. induction l as [|a l IH]; simpl; [lia|].
  destruct (f a) eqn:Ef.
  - rewrite (H a Ef). simpl. lia.
  - destruct (g a); simpl; lia.
Qed.

Lemma in_windowb_wider (col : option datetime) (lo hi lo' hi' : datetime) :
  lo' <= lo -> hi <= hi' ->
  in_windowb col lo hi = true -> in_windowb col lo' hi' = true.
Proof.
  intros Hlo Hhi. destruct col as [d|]; simpl; [|discriminate].
  rewrite !andb_true_iff, !Z.leb_le. lia.
Qed.

(** Widening the window lowers neither count of the statistics. *)
Theorem get_stats_wider_window
        (s : Store) (start_date end_date start_date' end_date' : datetime) :
  start_date' <= start_date -> end_date <= end_date' ->
  exists st st',
    CRUDRoll.get_stats start_date end_date s = (inr st, s)
    /\ CRUDRoll.get_stats start_date' end_date' s = (inr st', s)
    /\ RollStats.added_count st <= RollStats.added_count st'
    /\ RollStats.removed_count st <= RollStats.removed_count st'.
Proof.
  intros Hlo Hhi. eexists. eexists.
  split; [apply get_stats_eval|]. split; [apply get_stats_eval|]. simpl.
  unfold addedSet, removedSet.
  split; apply inj_le, filter_length_le; intros r;
    now apply in_windowb_wider.
Qed.

Lemma get_stats_wider_window_witness :
  exists st st',
    CRUDRoll.get_stats 1500 2500 three_rolls = (inr st, three_rolls)
    /\ CRUDRoll.get_stats 0 8000000000 three_rolls = (inr st', three_rolls)
    /\ RollStats.added_count st <= RollStats.added_count st'
    /\ RollStats.removed_count st <= RollStats.removed_count st'.
Proof.
  apply (get_stats_wider_window three_rolls 1500 2500 0 8000000000); lia.
Defined.

Lemma filter_all {A} (l : list A) : filter (fun _ => true) l = l.
Proof. induction l as [|a l IH]; simpl; [reflexivity | now rewrite IH]. Qed.

(** A listing with no bound returns the whole table, removed rolls
    included, in table order. *)
Theorem get_rolls_without_bounds (s : Store) :
  CRUDRoll.get_rolls None None None None None None None None s = (inr s, s).
Proof.
  unfold CRUDRoll.get_rolls, query_all. simpl.
  unfold CRUDRoll.query_Roll. now rewrite filter_all.
Qed.

(** A listing with a bound on [date_removed], lower or upper, returns no
    active roll: a roll whose [date_removed] is NULL passes neither
    comparison. *)
Theorem get_rolls_removed_bound_skips_active
        (s : Store)
        (length_min length_max weight_min weight_max : option float)
        (date_added_min date_added_max : option datetime)
        (date_removed_min date_removed_max : option datetime)
        (l : list Roll.t) (r : Roll.t) :
  date_removed_min <> None \/ date_removed_max <> None ->
  fst (CRUDRoll.get_rolls length_min length_max weight_min weight_max
                          date_added_min date_added_max
                          date_removed_min date_removed_max s) = inr l ->
  In r l ->
  Roll.date_removed r <> None.
Proof.
  intros Hb [= <-] Hin Hnone. apply filter_In in Hin. destruct Hin as [_ Hq].
  rewrite !if_not_None_true in Hq.
  destruct Hq as [[_ Hmin] Hmax]. rewrite Hnone in Hmin, Hmax.
  destruct Hb as [Hb|Hb].
  - destruct date_removed_min as [b|]; [|congruence].
    specialize (Hmin b eq_refl). discriminate.
  - destruct date_removed_max as [b|]; [|congruence].
    specialize (Hmax b eq_refl). discriminate.
Qed.

Lemma get_rolls_removed_bound_skips_active_witness :
  Roll.date_removed (Roll.mk 1 (5 # 1) (10 # 1) (Some 1000) (Some 7200001000))
  <> None.
Proof.
  apply (get_rolls_removed_bound_skips_active
           three_rolls None None None None None None (Some 0) None
           [Roll.mk 1 (5 # 1) (10 # 1) (Some 1000) (Some 7200001000)]).
  - left. discriminate.
  - reflexivity.
  - now left.
Defined.

(** ** What create and delete do to the statistics *)

Lemma stamped_absent (now : datetime) (roll_id : Z) (s : Store) :
  (forall x, In x s -> Roll.id x <> roll_id) -> stamped now roll_id s = s.
Proof.
  intros H. induction s as [|y s IH]; simpl; [reflexivity|].
  destruct (Z.eqb_spec (Roll.id y) roll_id) as [E|_].
  - exfalso. apply (H y); [now left | exact E].
  - f_equal. apply IH. intros x Hx. apply H. now right.
Qed.

Lemma stamped_added_count (now : datetime) (roll_id : Z) (lo hi : datetime)
      (s : Store) :
  List.length (addedSet lo hi (stamped now roll_id s))
  = List.length (addedSet lo hi s).
Proof.
  unfold addedSet. induction s as [|y s IH]; simpl; [reflexivity|].
  assert (E : Roll.date_added
                (if Roll.id y =? roll_id
                 then Roll.set_date_removed y (Some now) else y)
              = Roll.date_added y)
    by now destruct (Roll.id y =? roll_id).
  rewrite E. destruct (in_windowb (Roll.date_added y) lo hi); simpl; lia.
Qed.

Lemma stamped_removed_count (now : datetime) (roll_id : Z) (lo hi : datetime)
      (s : Store) (r : Roll.t) :
  NoDup (map Roll.id s) ->
  find (fun x => Roll.id x =? roll_id) s = Some r ->
  Roll.date_removed r = None ->
  List.length (removedSet lo hi (stamped now roll_id s))
  = (List.length (removedSet lo hi s)
     + if ((lo <=? now) && (now <=? hi))%Z then 1 else 0)%nat.
Proof.
  unfold removedSet.
  induction s as [|y s IH]; simpl; [discriminate|].
  intros Hpk Hf Hd. inversion Hpk as [|? ? Hy Hs]; subst.
  destruct (Z.eqb_spec (Roll.id y) roll_id) as [E|N].
  - injection Hf as ->. rewrite stamped_absent.
    + rewrite Hd. cbn [Roll.date_removed Roll.set_date_removed].
      change (in_windowb None lo hi) with false.
      change (in_windowb (Some now) lo hi)
        with ((lo <=? now) && (now <=? hi)).
      destruct ((lo <=? now) && (now <=? hi)); simpl; lia.
    + intros x Hx Hid. apply Hy. rewrite E, <- Hid. now apply in_map.
  - fold (stamped now roll_id s).
    destruct (in_windowb (Roll.date_removed y) lo hi); simpl;
      rewrite (IH Hs Hf Hd); reflexivity.
Qed.

(** A successful create at clock reading [now] raises [added_count] by one
    for every window that contains [now] and leaves it as it was for every
    other window; it leaves [removed_count] as it was. *)
Theorem create_roll_in_stats
        (s : Store) (now : datetime) (roll : RollCreate.t)
        (start_date end_date : datetime) :
  RollCreate.storable roll = true -> in_int64 (next_id s) = true ->
  let s' := snd (CRUDRoll.create_roll now roll s) in
  exists st st',
    CRUDRoll.get_stats start_date end_date s = (inr st, s)
    /\ CRUDRoll.get_stats start_date end_date s' = (inr st', s')
    /\ RollStats.added_count st'
       = RollStats.added_count st
         + (if (start_date <=? now) && (now <=? end_date) then 1 else 0)
    /\ RollStats.removed_count st' = RollStats.removed_count st.
Proof.
  intros Hs Hk s'. eexists. eexists.
  split; [apply get_stats_eval|]. split; [apply get_stats_eval|].
  subst s'. unfold CRUDRoll.create_roll, add_commit_refresh.
  rewrite Hs, Hk. simpl. unfold addedSet, removedSet.
  rewrite !filter_app, !length_app. simpl.
  destruct ((start_date <=? now) && (now <=? end_date)); simpl; split; lia.
Qed.

Lemma create_roll_in_stats_witness :
  let s' := snd (CRUDRoll.create_roll 4000 (RollCreate.mk (10 # 1) (20 # 1))
                                      three_rolls) in
  exists st st',
    CRUDRoll.get_stats 0 5000 three_rolls = (inr st, three_rolls)
    /\ CRUDRoll.get_stats 0 5000 s' = (inr st', s')
    /\ RollStats.added_count st' = RollStats.added_count st + 1
    /\ RollStats.removed_count st' = RollStats.removed_count st.
Proof.
  apply (create_roll_in_stats three_rolls 4000
           (RollCreate.mk (10 # 1) (20 # 1)) 0 5000); reflexivity.
Defined.

(** In a table keyed by [id], a successful delete at clock reading [now]
    raises [removed_count] by one for every window that contains [now] and
    leaves it as it was for every other window; it leaves [added_count] as
    it was. *)
Theorem delete_roll_in_stats
        (s : Store) (now : datetime) (roll_id : Z) (r : Roll.t)
        (start_date end_date : datetime) :
  primary_key s -> In r s -> Roll.id r = roll_id ->
  Roll.date_removed r = None ->
  let s' := snd (CRUDRoll.delete_roll now roll_id s) in
  exists st st',
    CRUDRoll.get_stats start_date end_date s = (inr st, s)
    /\ CRUDRoll.get_stats start_date end_date s' = (inr st', s')
    /\ RollStats.removed_count st'
       = RollStats.removed_count st
         + (if (start_date <=? now) && (now <=? end_date) then 1 else 0)
    /\ RollStats.added_count st' = RollStats.added_count st.
Proof.
  intros Hpk Hin Hid Hd s'.
  pose proof (find_present roll_id s r (proj1 Hpk) Hin Hid) as Hf.
  assert (Hr : in_int64 roll_id = true)
    by (rewrite <- Hid; now apply (primary_key_in_range s)).
  subst s'. rewrite (delete_roll_active now roll_id s r Hr Hf Hd). simpl.
  eexists. eexists.
  split; [apply get_stats_eval|]. split; [apply get_stats_eval|]. simpl.
  rewrite stamped_added_count.
  rewrite (stamped_removed_count now roll_id start_date end_date s r
             (proj1 Hpk) Hf Hd).
  simpl. split; [|reflexivity].
  destruct ((start_date <=? now) && (now <=? end_date)); lia.
Qed.

Lemma delete_roll_in_stats_witness :
  let s' := snd (CRUDRoll.delete_roll 5000 2 three_rolls) in
  exists st st',
    CRUDRoll.get_stats 0 8000000000 three_rolls = (inr st, three_rolls)
    /\ CRUDRoll.get_stats 0 8000000000 s' = (inr st', s')
    /\ RollStats.removed_count st' = RollStats.removed_count st + 1
    /\ RollStats.added_count st' = RollStats.added_count st.
Proof.
  apply (delete_roll_in_stats
           three_rolls 5000 2 (Roll.mk 2 (10 # 1) (20 # 1) (Some 2000) None)
           0 8000000000 three_rolls_primary_key).
  - right. now left.
  - reflexivity.
  - reflexivity.
Defined.

(** ** The table after two deletes in flight *)

Lemma stamped_twice (now now' : datetime) (roll_id : Z) (s : Store) :
  stamped now' roll_id (stamped now roll_id s) = stamped now' roll_id s.
Proof.
  unfold stamped. rewrite map_map. apply map_ext. intros x.
  destruct (Roll.id x =? roll_id) eqn:E; simpl; now rewrite E.
Qed.

(** Two calls of [delete_roll] on the id of an active roll of a table keyed
    by [id], in any of the six orders: the table ends with the roll stamped
    by the call that committed last.  When one call ends before the other
    begins that is the first call, the only one to commit; when both SELECTs
    precede the commits it is the call that moves last, and the
    [date_removed] the other call wrote is overwritten. *)
Theorem two_deletes_final_table
        (s : Store) (now1 now2 : datetime) (roll_id : Z) (r : Roll.t)
        (sched : list Concurrent.turn) :
  primary_key s ->
  find (fun x => Roll.id x =? roll_id) s = Some r ->
  Roll.date_removed r = None ->
  In sched Concurrent.interleavings ->
  let last_commit :=
    if Concurrent.serial sched
    then hd Concurrent.First sched
    else last sched Concurrent.First in
  Concurrent.table (Concurrent.run now1 now2 roll_id sched s)
  = stamped (match last_commit with
             | Concurrent.First => now1
             | Concurrent.Second => now2
             end) roll_id s.
Proof.
  intros Hpk Hf Hd Hin.
  pose proof (find_has_id roll_id s r Hf) as [Hrs Hid].
  assert (Hr : in_int64 roll_id = true)
    by (rewrite <- Hid; now apply (primary_key_in_range s)).
  pose proof (find_stamped roll_id now1 s r Hf) as Hf1.
  pose proof (find_stamped roll_id now2 s r Hf) as Hf2.
  assert (Hsel := fun now => advance_select_active roll_id r Hr now s Hf Hd).
  assert (Hsel1 := fun now =>
            advance_select_removed roll_id _ Hr now _ now1 Hf1 eq_refl).
  assert (Hsel2 := fun now =>
            advance_select_removed roll_id _ Hr now _ now2 Hf2 eq_refl).
  assert (Hst := fun now t => advance_stamp roll_id r now t).
  rewrite Hid in Hst.
  unfold Concurrent.run, Concurrent.start.
  simpl in Hin.
  destruct Hin as [<-|[<-|[<-|[<-|[<-|[<-|[]]]]]]];
    cbn [fold_left Concurrent.serial hd last Concurrent.step
         Concurrent.call1 Concurrent.call2 Concurrent.table];
    repeat (first [ rewrite Hsel | rewrite Hst | rewrite Hsel1 | rewrite Hsel2 ];
            cbn [Concurrent.call1 Concurrent.call2 Concurrent.table]);
    rewrite ?stamped_twice; reflexivity.
Qed.

Lemma two_deletes_final_table_witness :
  Concurrent.table
    (Concurrent.run 200 300 1
       [Concurrent.First; Concurrent.Second;
        Concurrent.Second; Concurrent.First] one_roll)
  = removed_roll.
Proof.
  apply (two_deletes_final_table
           one_roll 200 300 1 (Roll.mk 1 (10 # 1) (20 # 1) (Some 100) None)
           [Concurrent.First; Concurrent.Second;
            Concurrent.Second; Concurrent.First] one_roll_primary_key).
  - reflexivity.
  - reflexivity.
  - right. right. now left.
Defined.

(** ** Tables reached from the empty table *)

Lemma well_formed_later (s : Store) (t t' : datetime) :
  t <= t' -> well_formed s t -> well_formed s t'.
Proof.
  intros Hle (Hpk & Hinv & Hclock & Hadd).
  repeat split; try apply Hpk; try assumption.
  intros r da Hr Ha. pose proof (Hclock r da Hr Ha). lia.
Qed.

Lemma well_formed_after (s : Store) (now : datetime) (o : operation) :
  well_formed s now -> well_formed (after now o s) now.
Proof.
  intros (Hpk & Hinv & Hclock & Hadd).
  destruct (after_cases now o s)
    as [E|[(roll & _ & Hk & E)|(roll_id & r & _ & Hf & Hd & E)]]; rewrite E.
  - now repeat split; try apply Hpk.
  - split; [|split; [|split]].
    + now apply append_primary_key.
    + apply Forall_app. split; [exact Hinv|].
      constructor; [|constructor]. intros da dr _ H. discriminate.
    + intros x da Hx Ha. apply in_app_or in Hx.
      destruct Hx as [Hx|[<-|[]]]; [now apply (Hclock x)|].
      simpl in Ha. injection Ha as <-. lia.
    + apply Forall_app. split; [exact Hadd|].
      constructor; [discriminate | constructor].
  - assert (Hact : forall x, In x s -> Roll.id x = roll_id ->
                             Roll.date_removed x = None).
    { intros x Hx Hid. subst roll_id.
      now rewrite (primary_key_unique s r x Hpk Hf Hx). }
    split; [|split; [|split]].
    + now apply stamped_primary_key.
    + now apply stamped_invariant.
    + intros x da Hx Ha. unfold stamped in Hx.
      apply in_map_iff in Hx. destruct Hx as (y & <- & Hy).
      apply (Hclock y da Hy).
      now destruct (Roll.id y =? roll_id).
    + unfold stamped. apply Forall_map.
      rewrite Forall_forall in *. intros y Hy.
      specialize (Hadd y Hy). now destruct (Roll.id y =? roll_id).
Qed.

Lemma well_formed_run (log : list (datetime * operation)) :
  forall (s : Store) (t : datetime),
    nondecreasing t log -> well_formed s t ->
    exists t', well_formed (run_ops log s) t'.
Proof.
  induction log as [|[now o] log IH]; intros s t Hmono Hwf; simpl.
  - now exists t.
  - destruct Hmono as [Hle Hmono].
    apply (IH (after now o s) now Hmono).
    apply well_formed_after. now apply well_formed_later with t.
Qed.

(** Starting from the empty table, any history of requests whose clock
    readings never go back leaves a table in which no two rolls share an id,
    every roll has its [date_added], and no roll is removed before it was
    added. *)
Theorem reachable_table_well_formed
        (t : datetime) (log : list (datetime * operation)) :
  nondecreasing t log ->
  let s := run_ops log [] in
  primary_key s
  /\ store_invariant s
  /\ Forall (fun r => Roll.date_added r <> None) s.
Proof.
  intros Hmono s.
  destruct (well_formed_run log [] t Hmono) as (t' & Hpk & Hinv & _ & Hadd).
  - repeat split; try constructor. intros r da [].
  - now repeat split; try apply Hpk.
Qed.

Lemma reachable_table_well_formed_witness :
  let s := run_ops [(100, Create (RollCreate.mk (10 # 1) (20 # 1)));
                    (200, Delete 1); (300, Delete 1)] [] in
  s = removed_roll
  /\ primary_key s
  /\ store_invariant s
  /\ Forall (fun r => Roll.date_added r <> None) s.
Proof.
  split; [reflexivity|].
  apply (reachable_table_well_formed 0). simpl. lia.
Defined.
